(** * QXmppMessage: the XMPP message-stanza codec

    A shallow embedding of [src/base/QXmppMessage.cpp]: the message value,
    its constructor and setters, [QXmppMessage::parse] (DOM element to
    message) and [QXmppMessage::toXml] (message to XML writer calls), and
    the properties of the codec stated over them.

    Strings are [string], each character standing for the [QChar] of the
    same code point (below 256); a possibly-null [QDomElement] is an
    optional DOM node; the calls made on the [QXmlStreamWriter] are read as the document
    they write ([XmlOut]). *)

From Stdlib Require Import String Ascii List ZArith NArith Bool Lia.
From Stdlib Require DecimalString DecimalN.
Import ListNotations.
Local Open Scope string_scope.
Local Open Scope list_scope.
Set Warnings "-register-all".

(** ** QString operations used by the codec *)

Definition isEmpty (s : string) : bool :=
  match s with
  | EmptyString => true
  | String _ _ => false
  end.

(** [QString::indexOf(QChar)]: position of the first occurrence, -1 when
    there is none. *)
Fixpoint indexOf (s : string) (c : ascii) : Z :=
  match s with
  | EmptyString => (-1)%Z
  | String a r =>
      if Ascii.eqb a c then 0%Z
      else let i := indexOf r c in
           if (i <? 0)%Z then (-1)%Z else (i + 1)%Z
  end.

Fixpoint dropChars (n : nat) (s : string) : string :=
  match n, s with
  | O, _ => s
  | S _, EmptyString => EmptyString
  | S k, String _ r => dropChars k r
  end.

(** [QString::mid(position)]: the tail of the string from [position]; the
    null string when [position] exceeds the length. *)
Definition mid (s : string) (position : Z) : string :=
  if (Z.of_nat (String.length s) <? position)%Z then EmptyString
  else dropChars (Z.to_nat position) s.

(** [QString::replace(before, after)]: every occurrence of [before], found
    left to right without overlap, becomes [after].  [skip] counts the
    characters of a match still to be passed over. *)
Fixpoint replaceFrom (before after : string) (skip : nat) (s : string) : string :=
  match s with
  | EmptyString => EmptyString
  | String c r =>
      match skip with
      | S k => replaceFrom before after k r
      | O =>
          if negb (isEmpty before) && String.prefix before s
          then (after ++ replaceFrom before after (String.length before - 1) r)%string
          else String c (replaceFrom before after O r)
      end
  end.

Definition replace (s before after : string) : string :=
  replaceFrom before after O s.

(** [QChar::isSpace] on the characters a [string] holds, the code points
    below 256: the controls U+0009 to U+000D, the space U+0020, the
    next-line control U+0085 and the no-break space U+00A0, the only
    separator character in this range. *)
Definition isSpace (c : ascii) : bool :=
  let n := nat_of_ascii c in
  ((9 <=? n)%nat && (n <=? 13)%nat) || (n =? 32)%nat
  || (n =? 133)%nat || (n =? 160)%nat.

Fixpoint trimLeft (s : string) : string :=
  match s with
  | EmptyString => EmptyString
  | String c r => if isSpace c then trimLeft r else s
  end.

Fixpoint trimRight (s : string) : string :=
  match s with
  | EmptyString => EmptyString
  | String c r =>
      let r' := trimRight r in
      if isSpace c && isEmpty r' then EmptyString else String c r'
  end.

(** [QString::trimmed]. *)
Definition trimmed (s : string) : string := trimRight (trimLeft s).

(** ** The DOM tree handed to the decoder *)

Inductive QDomNode : Type :=
| ElementNode (tagName namespaceURI : string)
              (attributes : list (string * string))
              (childNodes : list QDomNode)
| TextNode (data : string).

(** A [QDomElement] handle may be null: failed look-ups return the null
    element, on which every accessor answers with the empty value. *)
Definition QDomElement : Type := option QDomNode.

Definition isNull (e : QDomElement) : bool :=
  match e with
  | Some (ElementNode _ _ _ _) => false
  | _ => true
  end.

Definition tagName (e : QDomElement) : string :=
  match e with
  | Some (ElementNode t _ _ _) => t
  | _ => EmptyString
  end.

Definition namespaceURI (e : QDomElement) : string :=
  match e with
  | Some (ElementNode _ ns _ _) => ns
  | _ => EmptyString
  end.

Definition childNodes (e : QDomElement) : list QDomNode :=
  match e with
  | Some (ElementNode _ _ _ kids) => kids
  | _ => []
  end.

Definition lookupAttribute (attrs : list (string * string)) (name : string) : string :=
  match find (fun kv => String.eqb (fst kv) name) attrs with
  | Some kv => snd kv
  | None => EmptyString
  end.

(** [QDomElement::attribute(name)]: the value, empty when absent. *)
Definition attribute (e : QDomElement) (name : string) : string :=
  match e with
  | Some (ElementNode _ _ attrs _) => lookupAttribute attrs name
  | _ => EmptyString
  end.

Definition isElementNamed (name : string) (n : QDomNode) : bool :=
  match n with
  | ElementNode t _ _ _ => String.eqb t name
  | TextNode _ => false
  end.

(** [QDomNode::firstChildElement(tagName)]: the first child element with
    that tag name, whatever its namespace; null when there is none. *)
Definition firstChildElement (e : QDomElement) (name : string) : QDomElement :=
  find (isElementNamed name) (childNodes e).

(** The elements visited by
    [for (c = e.firstChildElement(n); !c.isNull(); c = c.nextSiblingElement(n))],
    in document order. *)
Definition childElementsNamed (e : QDomElement) (name : string) : list QDomNode :=
  filter (isElementNamed name) (childNodes e).

(** [QDomElement::text()]: the text of all text nodes below the element. *)
Fixpoint nodeText (n : QDomNode) : string :=
  match n with
  | TextNode d => d
  | ElementNode _ _ _ kids =>
      (fix go (l : list QDomNode) : string :=
         match l with
         | [] => EmptyString
         | k :: r => (nodeText k ++ go r)%string
         end) kids
  end.

Definition text (e : QDomElement) : string :=
  match e with
  | Some (ElementNode t ns a kids) => nodeText (ElementNode t ns a kids)
  | _ => EmptyString
  end.

(** ** QDateTime *)

Inductive TimeSpec : Type := LocalTime | UTC.

Record QDate : Type := mkDate { year : Z; month : Z; day : Z }.
Record QTime : Type := mkTime { hour : Z; minute : Z; second : Z; msec : Z }.

(** A [QDateTime] pairs a date and a time, each of which may be invalid,
    with a time specification. *)
Record QDateTime : Type := mkDateTime {
  dt_date : option QDate;
  dt_time : option QTime;
  dt_spec : TimeSpec
}.

(** [QDateTime()]: the null date-time. *)
Definition nullDateTime : QDateTime := mkDateTime None None LocalTime.

(** [QDateTime::isValid]: both the date and the time are valid. *)
Definition isValid (d : QDateTime) : bool :=
  match dt_date d, dt_time d with
  | Some _, Some _ => true
  | _, _ => false
  end.

(** [QDateTime::setTimeSpec]: only the specification changes. *)
Definition setTimeSpec (d : QDateTime) (spec : TimeSpec) : QDateTime :=
  mkDateTime (dt_date d) (dt_time d) spec.

(** ** What the XML writer is asked to write *)

(** [writeStartElement n; (writeAttribute k v)*; content; writeEndElement]
    is an [XElement]; [writeCharacters] an [XCharacters];
    [device()->write(bytes)] an [XRaw]. *)
Inductive XmlOut : Type :=
| XElement (qualifiedName : string)
           (attributes : list (string * string))
           (content : list XmlOut)
| XCharacters (text : string)
| XRaw (bytes : string).

Definition outName (o : XmlOut) : string :=
  match o with
  | XElement n _ _ => n
  | _ => EmptyString
  end.

Definition outAttributes (o : XmlOut) : list (string * string) :=
  match o with
  | XElement _ a _ => a
  | _ => []
  end.

Definition outContent (o : XmlOut) : list XmlOut :=
  match o with
  | XElement _ _ c => c
  | _ => []
  end.

(** Writing a DOM node as it stands: the namespace is declared where it
    differs from the enclosing one, then the attributes and the children
    follow in their order. *)
Fixpoint nodeToXml (parentNs : string) (n : QDomNode) : XmlOut :=
  match n with
  | TextNode d => XCharacters d
  | ElementNode t ns attrs kids =>
      XElement t
        ((if isEmpty ns || String.eqb ns parentNs then [] else [("xmlns", ns)])
           ++ attrs)
        (map (nodeToXml ns) kids)
  end.

(** Modelled from the spec: [QXmppElement] (QXmppElement.cpp is not part of
    the sources), the "opaque element copy" of an extension child, which the
    encoder emits "verbatim".  The copy keeps the node and the namespace of
    the element it was taken from. *)
Record QXmppElement : Type := mkQXmppElement {
  sourceNode : QDomNode;
  parentNamespace : string
}.

Definition QXmppElement_toXml (e : QXmppElement) : XmlOut :=
  nodeToXml (parentNamespace e) (sourceNode e).

(** ** The base stanza *)

(** Modelled from the spec: the fields [QXmppStanza] owns (id, to, from,
    language, error payload) and the extension list it stores; the error
    payload is kept as the copy of the [error] child. *)
Record QXmppStanza : Type := mkQXmppStanza {
  st_id : string;
  st_to : string;
  st_from : string;
  st_lang : string;
  st_error : option QXmppElement;
  st_extensions : list QXmppElement
}.

(** [QXmppStanza(from, to)]. *)
Definition QXmppStanza_ctor (from to : string) : QXmppStanza :=
  mkQXmppStanza EmptyString to from EmptyString None [].

(** Modelled from the spec: [QXmppStanza::parse], "parse(element) ->
    {id, to, from, lang, error}", reading the attributes [id], [to], [from]
    and [xml:lang] and the [error] child. *)
Definition QXmppStanza_parse (s : QXmppStanza) (element : QDomElement) : QXmppStanza :=
  mkQXmppStanza
    (attribute element "id")
    (attribute element "to")
    (attribute element "from")
    (attribute element "xml:lang")
    (match firstChildElement element "error" with
     | Some n => Some (mkQXmppElement n (namespaceURI element))
     | None => None
     end)
    (st_extensions s).

Definition setExtensions (s : QXmppStanza) (extensions : list QXmppElement) : QXmppStanza :=
  mkQXmppStanza (st_id s) (st_to s) (st_from s) (st_lang s) (st_error s) extensions.

Definition setId (s : QXmppStanza) (id : string) : QXmppStanza :=
  mkQXmppStanza id (st_to s) (st_from s) (st_lang s) (st_error s) (st_extensions s).

(** Modelled from the spec: the error payload is emitted "if an error is
    set", as the [error] child. *)
Definition Error_toXml (err : option QXmppElement) : list XmlOut :=
  match err with
  | Some e => [QXmppElement_toXml e]
  | None => []
  end.

(** [QString::number]: the decimal digits of the counter. *)
Definition numberToString (n : N) : string :=
  DecimalString.NilEmpty.string_of_uint (N.to_uint n).

(** Modelled from the spec: [QXmppStanza::generateAndSetNextId], "assigning
    a fresh unique id to the message": a process-wide counter is advanced
    and its value, after a fixed prefix, becomes the id. *)
Definition generateAndSetNextId (uniqueIdNo : N) (s : QXmppStanza) : N * QXmppStanza :=
  let next := N.succ uniqueIdNo in
  (next, setId s ("qxmpp" ++ numberToString next)%string).

(** ** Enumerations and their wire tables *)

Inductive Type_ : Type := Error | Normal | Chat | GroupChat | Headline.

Inductive State : Type := None_ | Active | Inactive | Gone | Composing | Paused.

Inductive StampType : Type := LegacyDelayedDelivery | DelayedDelivery.

Definition chat_states : list string :=
  [""; "active"; "inactive"; "gone"; "composing"; "paused"].

Definition message_types : list string :=
  ["error"; "normal"; "chat"; "groupchat"; "headline"].

Definition ns_xhtml : string := "http://www.w3.org/1999/xhtml".

Definition Type_index (t : Type_) : nat :=
  match t with
  | Error => 0 | Normal => 1 | Chat => 2 | GroupChat => 3 | Headline => 4
  end.

(** [static_cast<Type>(i)] for the indices the decoder's loop visits. *)
Definition Type_of_index (i : nat) : Type_ :=
  match i with
  | 0 => Error | 1 => Normal | 2 => Chat | 3 => GroupChat | _ => Headline
  end.

Definition State_index (s : State) : nat :=
  match s with
  | None_ => 0 | Active => 1 | Inactive => 2
  | Gone => 3 | Composing => 4 | Paused => 5
  end.

Definition State_of_index (i : nat) : State :=
  match i with
  | 0 => None_ | 1 => Active | 2 => Inactive
  | 3 => Gone | 4 => Composing | _ => Paused
  end.

(** ** The message value *)

Record QXmppMessage : Type := mkQXmppMessage {
  base : QXmppStanza;
  m_type : Type_;
  m_stamp : QDateTime;
  m_stampType : StampType;
  m_state : State;
  m_attentionRequested : bool;
  m_body : string;
  m_subject : string;
  m_thread : string;
  m_xhtml : string;
  m_receiptId : string;
  m_receiptRequested : bool
}.

Definition id (m : QXmppMessage) : string := st_id (base m).
Definition to (m : QXmppMessage) : string := st_to (base m).
Definition from (m : QXmppMessage) : string := st_from (base m).
Definition lang (m : QXmppMessage) : string := st_lang (base m).
Definition error (m : QXmppMessage) : option QXmppElement := st_error (base m).
Definition extensions (m : QXmppMessage) : list QXmppElement := st_extensions (base m).

(** [QXmppMessage::QXmppMessage(from, to, body, thread)]: the members named
    in the initialiser list, the others default-constructed. *)
Definition QXmppMessage_ctor (from to body thread : string) : QXmppMessage :=
  {| base := QXmppStanza_ctor from to;
     m_type := Chat;
     m_stamp := nullDateTime;
     m_stampType := DelayedDelivery;
     m_state := None_;
     m_attentionRequested := false;
     m_body := body;
     m_subject := EmptyString;
     m_thread := thread;
     m_xhtml := EmptyString;
     m_receiptId := EmptyString;
     m_receiptRequested := false |}.

Definition withBase (m : QXmppMessage) (b : QXmppStanza) : QXmppMessage :=
  {| base := b; m_type := m_type m; m_stamp := m_stamp m;
     m_stampType := m_stampType m; m_state := m_state m;
     m_attentionRequested := m_attentionRequested m; m_body := m_body m;
     m_subject := m_subject m; m_thread := m_thread m; m_xhtml := m_xhtml m;
     m_receiptId := m_receiptId m; m_receiptRequested := m_receiptRequested m |}.

Definition setBody (m : QXmppMessage) (body : string) : QXmppMessage :=
  {| base := base m; m_type := m_type m; m_stamp := m_stamp m;
     m_stampType := m_stampType m; m_state := m_state m;
     m_attentionRequested := m_attentionRequested m; m_body := body;
     m_subject := m_subject m; m_thread := m_thread m; m_xhtml := m_xhtml m;
     m_receiptId := m_receiptId m; m_receiptRequested := m_receiptRequested m |}.

Definition setAttentionRequested (m : QXmppMessage) (requested : bool) : QXmppMessage :=
  {| base := base m; m_type := m_type m; m_stamp := m_stamp m;
     m_stampType := m_stampType m; m_state := m_state m;
     m_attentionRequested := requested; m_body := m_body m;
     m_subject := m_subject m; m_thread := m_thread m; m_xhtml := m_xhtml m;
     m_receiptId := m_receiptId m; m_receiptRequested := m_receiptRequested m |}.

Definition setReceiptId (m : QXmppMessage) (id : string) : QXmppMessage :=
  {| base := base m; m_type := m_type m; m_stamp := m_stamp m;
     m_stampType := m_stampType m; m_state := m_state m;
     m_attentionRequested := m_attentionRequested m; m_body := m_body m;
     m_subject := m_subject m; m_thread := m_thread m; m_xhtml := m_xhtml m;
     m_receiptId := id; m_receiptRequested := m_receiptRequested m |}.

Definition setType (m : QXmppMessage) (type : Type_) : QXmppMessage :=
  {| base := base m; m_type := type; m_stamp := m_stamp m;
     m_stampType := m_stampType m; m_state := m_state m;
     m_attentionRequested := m_attentionRequested m; m_body := m_body m;
     m_subject := m_subject m; m_thread := m_thread m; m_xhtml := m_xhtml m;
     m_receiptId := m_receiptId m; m_receiptRequested := m_receiptRequested m |}.

Definition setStamp (m : QXmppMessage) (stamp : QDateTime) : QXmppMessage :=
  {| base := base m; m_type := m_type m; m_stamp := stamp;
     m_stampType := m_stampType m; m_state := m_state m;
     m_attentionRequested := m_attentionRequested m; m_body := m_body m;
     m_subject := m_subject m; m_thread := m_thread m; m_xhtml := m_xhtml m;
     m_receiptId := m_receiptId m; m_receiptRequested := m_receiptRequested m |}.

Definition setState (m : QXmppMessage) (state : State) : QXmppMessage :=
  {| base := base m; m_type := m_type m; m_stamp := m_stamp m;
     m_stampType := m_stampType m; m_state := state;
     m_attentionRequested := m_attentionRequested m; m_body := m_body m;
     m_subject := m_subject m; m_thread := m_thread m; m_xhtml := m_xhtml m;
     m_receiptId := m_receiptId m; m_receiptRequested := m_receiptRequested m |}.

Definition setSubject (m : QXmppMessage) (subject : string) : QXmppMessage :=
  {| base := base m; m_type := m_type m; m_stamp := m_stamp m;
     m_stampType := m_stampType m; m_state := m_state m;
     m_attentionRequested := m_attentionRequested m; m_body := m_body m;
     m_subject := subject; m_thread := m_thread m; m_xhtml := m_xhtml m;
     m_receiptId := m_receiptId m; m_receiptRequested := m_receiptRequested m |}.

Definition setThread (m : QXmppMessage) (thread : string) : QXmppMessage :=
  {| base := base m; m_type := m_type m; m_stamp := m_stamp m;
     m_stampType := m_stampType m; m_state := m_state m;
     m_attentionRequested := m_attentionRequested m; m_body := m_body m;
     m_subject := m_subject m; m_thread := thread; m_xhtml := m_xhtml m;
     m_receiptId := m_receiptId m; m_receiptRequested := m_receiptRequested m |}.

Definition setXhtml (m : QXmppMessage) (xhtml : string) : QXmppMessage :=
  {| base := base m; m_type := m_type m; m_stamp := m_stamp m;
     m_stampType := m_stampType m; m_state := m_state m;
     m_attentionRequested := m_attentionRequested m; m_body := m_body m;
     m_subject := m_subject m; m_thread := m_thread m; m_xhtml := xhtml;
     m_receiptId := m_receiptId m; m_receiptRequested := m_receiptRequested m |}.

(** [QXmppMessage::setReceiptRequested]: the flag is stored, and a message
    without an id gets one from the process-wide counter [uniqueIdNo]. *)
Definition setReceiptRequested (uniqueIdNo : N) (m : QXmppMessage) (requested : bool)
  : N * QXmppMessage :=
  let m1 :=
    {| base := base m; m_type := m_type m; m_stamp := m_stamp m;
       m_stampType := m_stampType m; m_state := m_state m;
       m_attentionRequested := m_attentionRequested m; m_body := m_body m;
       m_subject := m_subject m; m_thread := m_thread m; m_xhtml := m_xhtml m;
       m_receiptId := m_receiptId m; m_receiptRequested := requested |} in
  if requested && isEmpty (id m1)
  then let (n, b) := generateAndSetNextId uniqueIdNo (base m1) in (n, withBase m1 b)
  else (uniqueIdNo, m1).

(** ** Collaborators outside this file *)

(** The namespace constants of QXmppConstants, the date-time conversions of
    QXmppUtils and Qt, and the DOM serialiser are taken as given: the codec
    is verified for whatever they are. *)
Class Externals : Type := {
  ns_chat_states : string;
  ns_xhtml_im : string;
  ns_message_receipts : string;
  ns_delayed_delivery : string;
  ns_legacy_delayed_delivery : string;
  ns_attention : string;
  (** [QXmppUtils::datetimeFromString] and [QXmppUtils::datetimeToString] *)
  datetimeFromString : string -> QDateTime;
  datetimeToString : QDateTime -> string;
  (** [QDateTime::fromString(str, format)] and [QDateTime::toString(format)] *)
  QDateTime_fromString : string -> string -> QDateTime;
  QDateTime_toString : QDateTime -> string -> string;
  (** [QDateTime::toUTC] *)
  toUTC : QDateTime -> QDateTime;
  (** [QDomNode::save(stream, 0)]: the serialised element *)
  save : QDomElement -> string
}.

Definition dquote : string := String (ascii_of_nat 34) EmptyString.

Section Codec.

Context {K : Externals}.

(** *** QXmppMessage::parse *)

(** [m_type = Normal; for (i = Error; i <= Headline; i++) if (type ==
    message_types[i]) { m_type = i; break; }] *)
Definition parse_type (element : QDomElement) : Type_ :=
  let type := attribute element "type" in
  match find (fun i => String.eqb type (nth i message_types EmptyString))
             (seq (Type_index Error) 5) with
  | Some i => Type_of_index i
  | None => Normal
  end.

(** The loop over the chat states, [Active] to [Paused]: the first state
    whose name is the tag of a child, that child (the first of its name)
    lying in the chat-states namespace, is stored; without a match
    [m_state] keeps its value. *)
Definition stateMatches (element : QDomElement) (i : nat) : bool :=
  let stateElement := firstChildElement element (nth i chat_states EmptyString) in
  negb (isNull stateElement)
  && String.eqb (namespaceURI stateElement) ns_chat_states.

Definition parse_state (state0 : State) (element : QDomElement) : State :=
  match find (stateMatches element) (seq (State_index Active) 5) with
  | Some i => State_of_index i
  | None => state0
  end.

(** XEP-0071: the text stream appends the serialised [body] to [m_xhtml],
    which is then cut after the first [>], freed of the namespace
    declaration and of the closing tag, and trimmed. *)
Definition parse_xhtml (xhtml0 : string) (element : QDomElement) : string :=
  let htmlElement := firstChildElement element "html" in
  if negb (isNull htmlElement) && String.eqb (namespaceURI htmlElement) ns_xhtml_im
  then
    let bodyElement := firstChildElement htmlElement "body" in
    if negb (isNull bodyElement) && String.eqb (namespaceURI bodyElement) ns_xhtml
    then
      let s0 := (xhtml0 ++ save bodyElement)%string in
      let s1 := mid s0 (indexOf s0 ">" + 1) in
      let s2 := replace s1 (" xmlns=" ++ dquote ++ "http://www.w3.org/1999/xhtml" ++ dquote)%string
                        EmptyString in
      let s3 := replace s2 "</body>" EmptyString in
      trimmed s3
    else xhtml0
  else xhtml0.

(** XEP-0184: [stanzaId] is [id()] after the base stanza was parsed. *)
Definition parse_receiptId (stanzaId : string) (element : QDomElement) : string :=
  let receivedElement := firstChildElement element "received" in
  if negb (isNull receivedElement)
     && String.eqb (namespaceURI receivedElement) ns_message_receipts
  then
    let receiptId := attribute receivedElement "id" in
    if isEmpty receiptId then stanzaId else receiptId
  else EmptyString.

(** XEP-0203: the [delay] child. *)
Definition parse_delay (stamp0 : QDateTime) (stampType0 : StampType)
  (element : QDomElement) : QDateTime * StampType :=
  let delayElement := firstChildElement element "delay" in
  if negb (isNull delayElement)
     && String.eqb (namespaceURI delayElement) ns_delayed_delivery
  then
    let str := attribute delayElement "stamp" in
    (datetimeFromString str, DelayedDelivery)
  else (stamp0, stampType0).

(** One turn of the loop over the [x] children: a legacy delay sets the
    stamp (XEP-0091), any other [x] is appended to the extensions. *)
Definition parse_x (parentNs : string)
  (acc : QDateTime * StampType * list QXmppElement) (xElement : QDomNode)
  : QDateTime * StampType * list QXmppElement :=
  let '(stamp, stampType, extensions) := acc in
  if String.eqb (namespaceURI (Some xElement)) ns_legacy_delayed_delivery
  then
    let str := attribute (Some xElement) "stamp" in
    (setTimeSpec (QDateTime_fromString str "yyyyMMddThh:mm:ss") UTC,
     LegacyDelayedDelivery, extensions)
  else (stamp, stampType, extensions ++ [mkQXmppElement xElement parentNs]).

Definition parse_xs (stamp1 : QDateTime) (stampType1 : StampType)
  (element : QDomElement) : QDateTime * StampType * list QXmppElement :=
  fold_left (parse_x (namespaceURI element))
            (childElementsNamed element "x")
            (stamp1, stampType1, []).

Definition parse (m : QXmppMessage) (element : QDomElement) : QXmppMessage :=
  let base1 := QXmppStanza_parse (base m) element in
  let type := parse_type element in
  let body := text (firstChildElement element "body") in
  let subject := text (firstChildElement element "subject") in
  let thread := text (firstChildElement element "thread") in
  let state := parse_state (m_state m) element in
  let xhtml := parse_xhtml (m_xhtml m) element in
  let receiptId := parse_receiptId (st_id base1) element in
  let receiptRequested :=
    String.eqb (namespaceURI (firstChildElement element "request")) ns_message_receipts in
  let '(stamp1, stampType1) := parse_delay (m_stamp m) (m_stampType m) element in
  let attentionRequested :=
    String.eqb (namespaceURI (firstChildElement element "attention")) ns_attention in
  let '(stamp2, stampType2, extensions) := parse_xs stamp1 stampType1 element in
  {| base := setExtensions base1 extensions;
     m_type := type;
     m_stamp := stamp2;
     m_stampType := stampType2;
     m_state := state;
     m_attentionRequested := attentionRequested;
     m_body := body;
     m_subject := subject;
     m_thread := thread;
     m_xhtml := xhtml;
     m_receiptId := receiptId;
     m_receiptRequested := receiptRequested |}.

(** The Decoder of the design: a freshly constructed message parses the
    element. *)
Definition decode (element : QDomElement) : QXmppMessage :=
  parse (QXmppMessage_ctor EmptyString EmptyString EmptyString EmptyString) element.

(** *** QXmppMessage::toXml *)

(** Modelled from the spec: [helperToXmlAddAttribute] of QXmppUtils, which
    emits an attribute "only when non-empty". *)
Definition helperToXmlAddAttribute (name value : string) : list (string * string) :=
  if isEmpty value then [] else [(name, value)].

(** Modelled from the spec: [helperToXmlAddTextElement] of QXmppUtils, which
    emits a "text child". *)
Definition helperToXmlAddTextElement (name value : string) : XmlOut :=
  XElement name [] [XCharacters value].

Definition toXml_attributes (m : QXmppMessage) : list (string * string) :=
  helperToXmlAddAttribute "xml:lang" (lang m)
  ++ helperToXmlAddAttribute "id" (id m)
  ++ helperToXmlAddAttribute "to" (to m)
  ++ helperToXmlAddAttribute "from" (from m)
  ++ helperToXmlAddAttribute "type" (nth (Type_index (m_type m)) message_types EmptyString).

Definition toXml_subject (m : QXmppMessage) : list XmlOut :=
  if negb (isEmpty (m_subject m))
  then [helperToXmlAddTextElement "subject" (m_subject m)] else [].

Definition toXml_body (m : QXmppMessage) : list XmlOut :=
  if negb (isEmpty (m_body m))
  then [helperToXmlAddTextElement "body" (m_body m)] else [].

Definition toXml_thread (m : QXmppMessage) : list XmlOut :=
  if negb (isEmpty (m_thread m))
  then [helperToXmlAddTextElement "thread" (m_thread m)] else [].

(** chat states *)
Definition toXml_state (m : QXmppMessage) : list XmlOut :=
  if (State_index None_ <? State_index (m_state m))%nat
     && (State_index (m_state m) <=? State_index Paused)%nat
  then [XElement (nth (State_index (m_state m)) chat_states EmptyString)
                 [("xmlns", ns_chat_states)] []]
  else [].

(** XEP-0071: XHTML-IM; the fragment goes to the device as it is. *)
Definition toXml_xhtml (m : QXmppMessage) : list XmlOut :=
  if negb (isEmpty (m_xhtml m))
  then [XElement "html" [("xmlns", ns_xhtml_im)]
          [XElement "body" [("xmlns", ns_xhtml)]
             [XCharacters EmptyString; XRaw (m_xhtml m)]]]
  else [].

(** time stamp *)
Definition toXml_stamp (m : QXmppMessage) : list XmlOut :=
  if isValid (m_stamp m)
  then
    let utcStamp := toUTC (m_stamp m) in
    match m_stampType m with
    | DelayedDelivery =>
        [XElement "delay"
           ([("xmlns", ns_delayed_delivery)]
              ++ helperToXmlAddAttribute "stamp" (datetimeToString utcStamp)) []]
    | LegacyDelayedDelivery =>
        [XElement "x"
           ([("xmlns", ns_legacy_delayed_delivery)]
              ++ helperToXmlAddAttribute "stamp"
                   (QDateTime_toString utcStamp "yyyyMMddThh:mm:ss")) []]
    end
  else [].

(** XEP-0184: Message Delivery Receipts *)
Definition toXml_received (m : QXmppMessage) : list XmlOut :=
  if negb (isEmpty (m_receiptId m))
  then [XElement "received"
          [("xmlns", ns_message_receipts); ("id", m_receiptId m)] []]
  else [].

Definition toXml_request (m : QXmppMessage) : list XmlOut :=
  if m_receiptRequested m
  then [XElement "request" [("xmlns", ns_message_receipts)] []] else [].

(** XEP-0224: Attention *)
Definition toXml_attention (m : QXmppMessage) : list XmlOut :=
  if m_attentionRequested m
  then [XElement "attention" [("xmlns", ns_attention)] []] else [].

(** other extensions *)
Definition toXml_extensions (m : QXmppMessage) : list XmlOut :=
  map QXmppElement_toXml (extensions m).

Definition toXml_children (m : QXmppMessage) : list XmlOut :=
  toXml_subject m ++ toXml_body m ++ toXml_thread m
  ++ Error_toXml (error m)
  ++ toXml_state m ++ toXml_xhtml m ++ toXml_stamp m
  ++ toXml_received m ++ toXml_request m ++ toXml_attention m
  ++ toXml_extensions m.

Definition toXml (m : QXmppMessage) : XmlOut :=
  XElement "message" (toXml_attributes m) (toXml_children m).

End Codec.

(** ** A concrete choice of the collaborators

    Used to evaluate the codec on concrete stanzas: the registered
    namespace URIs, date-time conversions driven by a format string
    ([yyyy], [MM], [dd], [hh], [mm], [ss], anything else literal), a UTC
    local time zone and a plain serialiser. *)
Module Sample.

Record Fields : Type := mkFields {
  f_year : Z; f_month : Z; f_day : Z;
  f_hour : Z; f_minute : Z; f_second : Z
}.

Definition digitVal (c : ascii) : option Z :=
  let n := nat_of_ascii c in
  if (48 <=? n)%nat && (n <=? 57)%nat then Some (Z.of_nat (n - 48)) else None.

Fixpoint readNumber (width : nat) (s : string) (acc : Z) : option (Z * string) :=
  match width with
  | O => Some (acc, s)
  | S k =>
      match s with
      | EmptyString => None
      | String c r =>
          match digitVal c with
          | Some d => readNumber k r (10 * acc + d)%Z
          | None => None
          end
      end
  end.

Fixpoint parseWith (fuel : nat) (fmt s : string) (f : Fields) : option Fields :=
  match fuel with
  | O => None
  | S k =>
      match fmt with
      | EmptyString => if isEmpty s then Some f else None
      | String c fr =>
          let field (width : nat) (store : Z -> Fields) :=
            match readNumber width s 0%Z with
            | Some (v, s') => parseWith k (dropChars width fmt) s' (store v)
            | None => None
            end in
          if String.prefix "yyyy" fmt then
            field 4%nat (fun v => mkFields v (f_month f) (f_day f) (f_hour f) (f_minute f) (f_second f))
          else if String.prefix "MM" fmt then
            field 2%nat (fun v => mkFields (f_year f) v (f_day f) (f_hour f) (f_minute f) (f_second f))
          else if String.prefix "dd" fmt then
            field 2%nat (fun v => mkFields (f_year f) (f_month f) v (f_hour f) (f_minute f) (f_second f))
          else if String.prefix "hh" fmt then
            field 2%nat (fun v => mkFields (f_year f) (f_month f) (f_day f) v (f_minute f) (f_second f))
          else if String.prefix "mm" fmt then
            field 2%nat (fun v => mkFields (f_year f) (f_month f) (f_day f) (f_hour f) v (f_second f))
          else if String.prefix "ss" fmt then
            field 2%nat (fun v => mkFields (f_year f) (f_month f) (f_day f) (f_hour f) (f_minute f) v)
          else
            match s with
            | EmptyString => None
            | String c' sr => if Ascii.eqb c c' then parseWith k fr sr f else None
            end
      end
  end.

Definition isLeapYear (y : Z) : bool :=
  ((y mod 4 =? 0) && negb (y mod 100 =? 0) || (y mod 400 =? 0))%Z.

Definition daysInMonth (y m : Z) : Z :=
  if (m =? 2)%Z then (if isLeapYear y then 29 else 28)%Z
  else if ((m =? 4) || (m =? 6) || (m =? 9) || (m =? 11))%Z then 30%Z
  else 31%Z.

Definition validFields (f : Fields) : bool :=
  ((1 <=? f_month f) && (f_month f <=? 12)
   && (1 <=? f_day f) && (f_day f <=? daysInMonth (f_year f) (f_month f))
   && (f_hour f <? 24) && (f_minute f <? 60) && (f_second f <? 60))%Z.

Definition fromString (str fmt : string) : QDateTime :=
  match parseWith (S (String.length fmt)) fmt str (mkFields 1900 1 1 0 0 0) with
  | Some f =>
      if validFields f
      then mkDateTime (Some (mkDate (f_year f) (f_month f) (f_day f)))
                      (Some (mkTime (f_hour f) (f_minute f) (f_second f) 0))
                      LocalTime
      else nullDateTime
  | None => nullDateTime
  end.

Fixpoint padNumber (width : nat) (v : Z) (acc : string) : string :=
  match width with
  | O => acc
  | S k => padNumber k (v / 10)%Z
             (String (ascii_of_nat (48 + Z.to_nat (v mod 10))) acc)
  end.

Fixpoint formatWith (fuel : nat) (fmt : string) (f : Fields) : string :=
  match fuel with
  | O => EmptyString
  | S k =>
      match fmt with
      | EmptyString => EmptyString
      | String c fr =>
          let field (width : nat) (v : Z) :=
            padNumber width v (formatWith k (dropChars width fmt) f) in
          if String.prefix "yyyy" fmt then field 4%nat (f_year f)
          else if String.prefix "MM" fmt then field 2%nat (f_month f)
          else if String.prefix "dd" fmt then field 2%nat (f_day f)
          else if String.prefix "hh" fmt then field 2%nat (f_hour f)
          else if String.prefix "mm" fmt then field 2%nat (f_minute f)
          else if String.prefix "ss" fmt then field 2%nat (f_second f)
          else String c (formatWith k fr f)
      end
  end.

Definition toString (d : QDateTime) (fmt : string) : string :=
  match dt_date d, dt_time d with
  | Some da, Some ti =>
      formatWith (S (String.length fmt)) fmt
        (mkFields (year da) (month da) (day da) (hour ti) (minute ti) (second ti))
  | _, _ => EmptyString
  end.

Definition renderAttribute (kv : string * string) : string :=
  (" " ++ fst kv ++ "=" ++ dquote ++ snd kv ++ dquote)%string.

Fixpoint renderNode (n : QDomNode) : string :=
  match n with
  | TextNode d => d
  | ElementNode t ns attrs kids =>
      ("<" ++ t ++ " xmlns=" ++ dquote ++ ns ++ dquote
       ++ String.concat EmptyString (map renderAttribute attrs) ++ ">"
       ++ (fix go (l : list QDomNode) : string :=
             match l with
             | [] => EmptyString
             | k :: r => (renderNode k ++ go r)%string
             end) kids
       ++ "</" ++ t ++ ">")%string
  end.

Definition externals : Externals :=
  {| ns_chat_states := "http://jabber.org/protocol/chatstates";
     ns_xhtml_im := "http://jabber.org/protocol/xhtml-im";
     ns_message_receipts := "urn:xmpp:receipts";
     ns_delayed_delivery := "urn:xmpp:delay";
     ns_legacy_delayed_delivery := "jabber:x:delay";
     ns_attention := "urn:xmpp:attention:0";
     datetimeFromString := fun str =>
       setTimeSpec (fromString str "yyyy-MM-ddThh:mm:ssZ") UTC;
     datetimeToString := fun d => toString d "yyyy-MM-ddThh:mm:ssZ";
     QDateTime_fromString := fromString;
     QDateTime_toString := toString;
     toUTC := fun d => setTimeSpec d UTC;
     save := fun e => match e with
                      | Some n => renderNode n
                      | None => EmptyString
                      end |}.

End Sample.

(** ** Vocabulary for the statements *)

(** Some child element of [e] has tag [name] and lies in namespace [ns]. *)
Definition hasChildIn (e : QDomElement) (name ns : string) : bool :=
  existsb (fun c => isElementNamed name c && String.eqb (namespaceURI (Some c)) ns)
          (childNodes e).

(** The first child element of [e] with tag [name] exists and lies in [ns]:
    what the decoder's look-ups test. *)
Definition firstChildIn (e : QDomElement) (name ns : string) : bool :=
  negb (isNull (firstChildElement e name))
  && String.eqb (namespaceURI (firstChildElement e name)) ns.

Fixpoint lastOf {A : Type} (l : list A) : option A :=
  match l with
  | [] => None
  | a :: r =>
      match lastOf r with
      | Some b => Some b
      | None => Some a
      end
  end.

Section Vocabulary.

Context {K : Externals}.

Definition chatStateNames : list string :=
  ["active"; "inactive"; "gone"; "composing"; "paused"].

(** No child named after a chat state lies in the chat-states namespace. *)
Definition noChatStateChild (e : QDomElement) : bool :=
  forallb (fun name => negb (hasChildIn e name ns_chat_states)) chatStateNames.

(** The children that carry a delay: [delay] in the XEP-0203 namespace and
    [x] in the XEP-0091 namespace. *)
Definition isModernDelay (c : QDomNode) : bool :=
  isElementNamed "delay" c && String.eqb (namespaceURI (Some c)) ns_delayed_delivery.

Definition isLegacyDelay (c : QDomNode) : bool :=
  isElementNamed "x" c && String.eqb (namespaceURI (Some c)) ns_legacy_delayed_delivery.

Definition isDelayChild (c : QDomNode) : bool := isModernDelay c || isLegacyDelay c.

(** The stamp of a delay child is parseable when the conversion the decoder
    applies to it yields a valid date-time. *)
Definition modernStamp (c : QDomNode) : QDateTime :=
  datetimeFromString (attribute (Some c) "stamp").

Definition legacyStamp (c : QDomNode) : QDateTime :=
  setTimeSpec (QDateTime_fromString (attribute (Some c) "stamp") "yyyyMMddThh:mm:ss") UTC.

Definition delayStamp (c : QDomNode) : QDateTime :=
  if isModernDelay c then modernStamp c else legacyStamp c.

Definition stampParses (c : QDomNode) : bool := isValid (delayStamp c).

Definition legacyDelayChildren (e : QDomElement) : list QDomNode :=
  filter isLegacyDelay (childNodes e).

(** The [x] children the decoder keeps as extensions. *)
Definition otherXChildren (e : QDomElement) : list QDomNode :=
  filter (fun c => negb (String.eqb (namespaceURI (Some c)) ns_legacy_delayed_delivery))
         (childElementsNamed e "x").

(** The [received] and [attention] children as the encoder writes them. *)
Definition receivedElement (receiptId : string) : XmlOut :=
  XElement "received" [("xmlns", ns_message_receipts); ("id", receiptId)] [].

Definition attentionElement : XmlOut :=
  XElement "attention" [("xmlns", ns_attention)] [].

(** Writing a stanza as it stands. *)
Definition writeStanza (n : QDomNode) : XmlOut :=
  nodeToXml (namespaceURI (Some n)) n.

(** A child that is there or not. *)
Definition optChild (present : bool) (n : QDomNode) : list QDomNode :=
  if present then [n] else [].

(** The children of the encoder's layout, block by block. *)
Definition dom_subject (sns : string) (m : QXmppMessage) : list QDomNode :=
  optChild (negb (isEmpty (m_subject m)))
           (ElementNode "subject" sns [] [TextNode (m_subject m)]).

Definition dom_body (sns : string) (m : QXmppMessage) : list QDomNode :=
  optChild (negb (isEmpty (m_body m)))
           (ElementNode "body" sns [] [TextNode (m_body m)]).

Definition dom_thread (sns : string) (m : QXmppMessage) : list QDomNode :=
  optChild (negb (isEmpty (m_thread m)))
           (ElementNode "thread" sns [] [TextNode (m_thread m)]).

Definition dom_state (m : QXmppMessage) : list QDomNode :=
  optChild ((State_index None_ <? State_index (m_state m))%nat
            && (State_index (m_state m) <=? State_index Paused)%nat)
           (ElementNode (nth (State_index (m_state m)) chat_states EmptyString)
                        ns_chat_states [] []).

Definition modernStampText (m : QXmppMessage) : string :=
  datetimeToString (toUTC (m_stamp m)).

Definition legacyStampText (m : QXmppMessage) : string :=
  QDateTime_toString (toUTC (m_stamp m)) "yyyyMMddThh:mm:ss".

Definition dom_stamp (m : QXmppMessage) : list QDomNode :=
  if isValid (m_stamp m)
  then match m_stampType m with
       | DelayedDelivery =>
           [ElementNode "delay" ns_delayed_delivery
              (helperToXmlAddAttribute "stamp" (modernStampText m)) []]
       | LegacyDelayedDelivery =>
           [ElementNode "x" ns_legacy_delayed_delivery
              (helperToXmlAddAttribute "stamp" (legacyStampText m)) []]
       end
  else [].

Definition dom_received (m : QXmppMessage) : list QDomNode :=
  optChild (negb (isEmpty (m_receiptId m)))
           (ElementNode "received" ns_message_receipts [("id", m_receiptId m)] []).

Definition dom_request (m : QXmppMessage) : list QDomNode :=
  optChild (m_receiptRequested m) (ElementNode "request" ns_message_receipts [] []).

Definition dom_attention (m : QXmppMessage) : list QDomNode :=
  optChild (m_attentionRequested m) (ElementNode "attention" ns_attention [] []).

Definition dom_children (sns : string) (m : QXmppMessage) : list QDomNode :=
  dom_subject sns m ++ dom_body sns m ++ dom_thread sns m
  ++ dom_state m ++ dom_stamp m
  ++ dom_received m ++ dom_request m ++ dom_attention m
  ++ map sourceNode (extensions m).

(** The stanza, in namespace [sns], that lists the fields of [m] the way
    the encoder lays them out: the attributes [xml:lang], [id], [to],
    [from] (each only when non-empty) and [type]; then, each at most once
    and in this order, [subject], [body], [thread], the chat-state child,
    the [delay] or legacy [x] child, [received], [request], [attention];
    then the other [x] extensions.  It has no XHTML-IM body and no error
    payload. *)
Definition asStanza (sns : string) (m : QXmppMessage) : QDomNode :=
  ElementNode "message" sns (toXml_attributes m) (dom_children sns m).

(** The attributes of the layout, written out: the language, the id, the
    addressee and the sender where they are not empty, and always the type
    under its wire name. *)
Definition typeName (t : Type_) : string :=
  match t with
  | Error => "error"
  | Normal => "normal"
  | Chat => "chat"
  | GroupChat => "groupchat"
  | Headline => "headline"
  end.

Definition layoutAttributes (m : QXmppMessage) : list (string * string) :=
  (if isEmpty (lang m) then [] else [("xml:lang", lang m)])
  ++ (if isEmpty (id m) then [] else [("id", id m)])
  ++ (if isEmpty (to m) then [] else [("to", to m)])
  ++ (if isEmpty (from m) then [] else [("from", from m)])
  ++ [("type", typeName (m_type m))].

Definition layoutStanza (sns : string) (m : QXmppMessage) : QDomNode :=
  ElementNode "message" sns (layoutAttributes m) (dom_children sns m).

(** The namespaces of the extensions are declared ones, none of them the
    namespace of the stanza itself. *)
Definition extensionNamespaces : list string :=
  [ns_chat_states; ns_message_receipts; ns_delayed_delivery;
   ns_legacy_delayed_delivery; ns_attention].

Definition namespacesApart (sns : string) : bool :=
  forallb (fun ns => negb (isEmpty ns) && negb (String.eqb ns sns)) extensionNamespaces.

(** An extension the decoder would keep again: an [x] element outside the
    legacy delayed-delivery namespace, copied from a stanza of namespace
    [sns]. *)
Definition keptExtension (sns : string) (x : QXmppElement) : bool :=
  String.eqb (parentNamespace x) sns
  && isElementNamed "x" (sourceNode x)
  && negb (String.eqb (namespaceURI (Some (sourceNode x))) ns_legacy_delayed_delivery).

(** The stamp text the encoder writes is one the decoder parses, and
    formatting the parsed stamp gives the same text again. *)
Definition stampTextStable (m : QXmppMessage) : Prop :=
  isValid (m_stamp m) = true ->
  match m_stampType m with
  | DelayedDelivery =>
      isValid (datetimeFromString (modernStampText m)) = true
      /\ datetimeToString (toUTC (datetimeFromString (modernStampText m)))
         = modernStampText m
  | LegacyDelayedDelivery =>
      isValid (QDateTime_fromString (legacyStampText m) "yyyyMMddThh:mm:ss") = true
      /\ QDateTime_toString
           (toUTC (setTimeSpec
                     (QDateTime_fromString (legacyStampText m) "yyyyMMddThh:mm:ss") UTC))
           "yyyyMMddThh:mm:ss"
         = legacyStampText m
  end.

(** The XHTML-IM look-up succeeds: the first [html] child lies in the
    XHTML-IM namespace and its first [body] child in the XHTML namespace. *)
Definition xhtmlBodyFound (e : QDomElement) : bool :=
  firstChildIn e "html" ns_xhtml_im
  && firstChildIn (firstChildElement e "html") "body" ns_xhtml.

(** The namespace declaration the decoder removes from the fragment. *)
Definition xhtmlNamespaceDeclaration : string :=
  (" xmlns=" ++ dquote ++ "http://www.w3.org/1999/xhtml" ++ dquote)%string.

(** A fragment freed of the namespace declarations. *)
Definition withoutNamespaceDeclaration (s : string) : string :=
  replace s xhtmlNamespaceDeclaration EmptyString.

(** Position of the first occurrence of [pat] in [s], if any. *)
Fixpoint findFirst (pat s : string) : option nat :=
  if String.prefix pat s then Some O
  else match s with
       | EmptyString => None
       | String _ r => option_map S (findFirst pat r)
       end.

(** The stamp and the kind the decoder settles on: the last legacy [x]
    child if there is one, else the first [delay] child if it lies in the
    delayed-delivery namespace, else what the message had. *)
Definition decidedStamp (m : QXmppMessage) (e : QDomElement) : QDateTime * StampType :=
  match lastOf (legacyDelayChildren e) with
  | Some x => (legacyStamp x, LegacyDelayedDelivery)
  | None =>
      if firstChildIn e "delay" ns_delayed_delivery
      then (datetimeFromString (attribute (firstChildElement e "delay") "stamp"),
            DelayedDelivery)
      else (m_stamp m, m_stampType m)
  end.

(** The delay child that decides the decoded stamp: the last [x] child of
    the legacy namespace if there is one; failing that, the first child
    named [delay], provided it lies in the delayed-delivery namespace. *)
Definition decidingDelayChild (e : QDomElement) : option QDomNode :=
  match lastOf (legacyDelayChildren e) with
  | Some x => Some x
  | None =>
      match firstChildElement e "delay" with
      | Some c => if isModernDelay c then Some c else None
      | None => None
      end
  end.

(** [m'] differs from [m] at most in the receipt-request flag and the id. *)
Definition sameButRequestAndId (m m' : QXmppMessage) : Prop :=
  to m' = to m /\ from m' = from m /\ lang m' = lang m
  /\ error m' = error m /\ extensions m' = extensions m
  /\ m_type m' = m_type m /\ m_stamp m' = m_stamp m
  /\ m_stampType m' = m_stampType m /\ m_state m' = m_state m
  /\ m_attentionRequested m' = m_attentionRequested m
  /\ m_body m' = m_body m /\ m_subject m' = m_subject m
  /\ m_thread m' = m_thread m /\ m_xhtml m' = m_xhtml m
  /\ m_receiptId m' = m_receiptId m.

End Vocabulary.

(** ** Concrete stanzas and messages

    The inputs on which the properties below are evaluated, with the
    collaborators of [Sample]. *)

Section SampleData.

#[local] Existing Instance Sample.externals.

Definition sampleMessage : QXmppMessage :=
  QXmppMessage_ctor "romeo@example.net" "juliet@example.com" "hi" EmptyString.

Definition attentionReceipt : QXmppMessage :=
  setReceiptId
    (setAttentionRequested
       (QXmppMessage_ctor EmptyString EmptyString EmptyString EmptyString) true)
    "msg1".

Definition stanza (attrs : list (string * string)) (kids : list QDomNode) : QDomElement :=
  Some (ElementNode "message" "jabber:client" attrs kids).

Definition textChild (name content : string) : QDomNode :=
  ElementNode name "jabber:client" [] [TextNode content].

Definition emptyMessage : QXmppMessage :=
  QXmppMessage_ctor EmptyString EmptyString EmptyString EmptyString.

Definition noon : QDateTime :=
  mkDateTime (Some (mkDate 2012 3 4)) (Some (mkTime 12 0 0 0)) UTC.

(** A message that already carries a chat state and a stamp. *)
Definition typingMessage : QXmppMessage :=
  setState (setStamp emptyMessage noon) Composing.

Definition plainStanza : QDomElement :=
  stanza [("type", "chat")] [textChild "body" "hi"].

(** Receipts: with an id, without one, and behind a [received] child of
    another namespace. *)
Definition receiptStanza : QDomElement :=
  stanza [("id", "m1")]
         [ElementNode "received" "urn:xmpp:receipts" [("id", "a")] []].

Definition oldReceiptStanza : QDomElement :=
  stanza [("id", "m1")] [ElementNode "received" "urn:xmpp:receipts" [] []].

Definition shadowedReceipt : QDomNode :=
  ElementNode "received" "urn:xmpp:receipts" [("id", "a")] [].

Definition shadowedReceiptStanza : QDomElement :=
  stanza [("id", "m1")]
         [ElementNode "received" "urn:example:other" [] []; shadowedReceipt].

(** Chat states. *)
Definition chatState (name ns : string) : QDomNode := ElementNode name ns [] [].

Definition composingStanza : QDomElement :=
  stanza [("type", "chat")]
         [chatState "composing" "http://jabber.org/protocol/chatstates"].

Definition shadowedComposingStanza : QDomElement :=
  stanza [("type", "chat")]
         [chatState "composing" "urn:example:other";
          chatState "composing" "http://jabber.org/protocol/chatstates"].

(** Delays. *)
Definition modernDelay (stamp : string) : QDomNode :=
  ElementNode "delay" "urn:xmpp:delay" [("stamp", stamp)] [].

Definition legacyDelay (stamp : string) : QDomNode :=
  ElementNode "x" "jabber:x:delay" [("stamp", stamp)] [].


Definition badDelayStanza : QDomElement :=
  stanza [] [textChild "body" "late"; modernDelay "yesterday"; legacyDelay "2009-01-10"].

(** Extensions. *)
Definition geoloc : QDomNode :=
  ElementNode "geoloc" "http://jabber.org/protocol/geoloc" []
              [ElementNode "lat" "http://jabber.org/protocol/geoloc" [] [TextNode "39.75"]].

Definition interpretedNames : list string :=
  ["subject"; "body"; "thread"; "error"; "active"; "inactive"; "gone";
   "composing"; "paused"; "html"; "received"; "request"; "delay"; "attention"; "x"].

Definition conference : QDomNode :=
  ElementNode "x" "jabber:x:conference" [("jid", "room@chat.example")] [].

Definition muc : QDomNode :=
  ElementNode "x" "http://jabber.org/protocol/muc#user" [] [].

(** A stanza built only from what the codec understands: a [message] whose
    attributes are among [xml:lang], [id], [to], [from], [type] and whose
    children are text children of the stanza's namespace, chat states,
    an XHTML-IM [html], delays, receipts and [attention]. *)
Definition understoodChild (sns : string) (c : QDomNode) : bool :=
  (existsb (fun name => isElementNamed name c) ["subject"; "body"; "thread"]
   && String.eqb (namespaceURI (Some c)) sns)
  || (existsb (fun name => isElementNamed name c) chatStateNames
      && String.eqb (namespaceURI (Some c)) ns_chat_states)
  || (isElementNamed "html" c && String.eqb (namespaceURI (Some c)) ns_xhtml_im)
  || isDelayChild c
  || (existsb (fun name => isElementNamed name c) ["received"; "request"]
      && String.eqb (namespaceURI (Some c)) ns_message_receipts)
  || (isElementNamed "attention" c && String.eqb (namespaceURI (Some c)) ns_attention).

Definition understoodStanza (n : QDomNode) : bool :=
  match n with
  | ElementNode t sns attrs kids =>
      String.eqb t "message"
      && forallb (fun kv => existsb (String.eqb (fst kv))
                                    ["xml:lang"; "id"; "to"; "from"; "type"]) attrs
      && forallb (understoodChild sns) kids
  | TextNode _ => false
  end.

Definition bodyFirst : QDomNode :=
  ElementNode "message" "jabber:client" [("type", "chat")]
    [textChild "body" "hi"; textChild "subject" "greeting"].

Definition fullMessage : QXmppMessage :=
  {| base := mkQXmppStanza "m1" "juliet@example.com" "romeo@example.net" "en" None
               [mkQXmppElement conference "jabber:client";
                mkQXmppElement muc "jabber:client"];
     m_type := GroupChat;
     m_stamp := noon;
     m_stampType := LegacyDelayedDelivery;
     m_state := Composing;
     m_attentionRequested := true;
     m_body := "hi";
     m_subject := "greeting";
     m_thread := "t1";
     m_xhtml := EmptyString;
     m_receiptId := "r1";
     m_receiptRequested := true |}.

(** A rich-text body, and a message that already carries one. *)
Definition richStanza : QDomElement :=
  stanza [("type", "chat")]
         [textChild "body" "hello";
          ElementNode "html" "http://jabber.org/protocol/xhtml-im" []
            [ElementNode "body" "http://www.w3.org/1999/xhtml" []
               [TextNode "  hello, world "]]].

Definition richMessage : QXmppMessage := setXhtml emptyMessage "<p>hi</p>".

(** Two chat states in one stanza, the later in the table first. *)
Definition twoStatesStanza : QDomElement :=
  stanza [] [chatState "composing" "http://jabber.org/protocol/chatstates";
             chatState "active" "http://jabber.org/protocol/chatstates"].

(** A stanza that is not in the encoder's layout. *)
Definition unorderedStanza : QDomElement :=
  stanza [("type", "chat"); ("id", "m7")]
         [conference; textChild "body" "hi"; legacyDelay "20090110T08:21:05";
          geoloc; textChild "subject" "greeting"; muc;
          chatState "paused" "http://jabber.org/protocol/chatstates"].

(** An unparseable [delay] beside a parseable legacy [x], and a parseable
    [delay] beside an unparseable legacy [x]. *)
Definition mixedDelaysStanza : QDomElement :=
  stanza [] [modernDelay "yesterday"; legacyDelay "20090110T08:21:05"].

Definition lateBadStanza : QDomElement :=
  stanza [] [modernDelay "2002-09-10T23:08:25Z"; legacyDelay "last week"].

(** A rich-text body that holds an element. *)
Definition richElementStanza : QDomElement :=
  stanza [("type", "chat")]
         [ElementNode "html" "http://jabber.org/protocol/xhtml-im" []
            [ElementNode "body" "http://www.w3.org/1999/xhtml" []
               [TextNode " ";
                ElementNode "p" "http://www.w3.org/1999/xhtml" []
                  [TextNode "hi "; ElementNode "b" "http://www.w3.org/1999/xhtml" []
                                     [TextNode "there"]];
                TextNode "  "]]].

(** An old-style receipt in a stanza without an id. *)
Definition anonymousReceiptStanza : QDomElement :=
  stanza [] [ElementNode "received" "urn:xmpp:receipts" [] []].

End SampleData.

(** * Properties *)

(** *** The sample conversions *)

Example sample_legacy_stamp :
  Sample.fromString "20090110T08:21:05" "yyyyMMddThh:mm:ss"
  = mkDateTime (Some (mkDate 2009 1 10)) (Some (mkTime 8 21 5 0)) LocalTime.
Proof. vm_compute. reflexivity. Qed.

Example sample_legacy_stamp_back :
  Sample.toString (Sample.fromString "20090110T08:21:05" "yyyyMMddThh:mm:ss")
                  "yyyyMMddThh:mm:ss"
  = "20090110T08:21:05".
Proof. vm_compute. reflexivity. Qed.

Example sample_bad_stamp :
  isValid (Sample.fromString "2009-01-10" "yyyyMMddThh:mm:ss") = false.
Proof. vm_compute. reflexivity. Qed.

Section Properties.

Context {K : Externals}.

(** *** The fields [parse] computes *)

Ltac parse_fields :=
  intros; unfold parse;
  match goal with
  | |- context [parse_delay ?s ?t ?e] => destruct (parse_delay s t e) as [? ?]
  end;
  match goal with
  | |- context [parse_xs ?s ?t ?e] => destruct (parse_xs s t e) as [[? ?] ?] eqn:?
  end;
  simpl; try reflexivity.

Lemma parse_m_type (m : QXmppMessage) (e : QDomElement) :
  m_type (parse m e) = parse_type e.
Proof. parse_fields. Qed.

Lemma parse_m_state (m : QXmppMessage) (e : QDomElement) :
  m_state (parse m e) = parse_state (m_state m) e.
Proof. parse_fields. Qed.

Lemma parse_id (m : QXmppMessage) (e : QDomElement) :
  id (parse m e) = attribute e "id".
Proof. parse_fields. Qed.

Lemma parse_m_receiptId (m : QXmppMessage) (e : QDomElement) :
  m_receiptId (parse m e) = parse_receiptId (attribute e "id") e.
Proof. parse_fields. Qed.

Lemma parse_m_xhtml (m : QXmppMessage) (e : QDomElement) :
  m_xhtml (parse m e) = parse_xhtml (m_xhtml m) e.
Proof. parse_fields. Qed.

Lemma parse_m_body (m : QXmppMessage) (e : QDomElement) :
  m_body (parse m e) = text (firstChildElement e "body").
Proof. parse_fields. Qed.

Lemma parse_m_subject (m : QXmppMessage) (e : QDomElement) :
  m_subject (parse m e) = text (firstChildElement e "subject").
Proof. parse_fields. Qed.

Lemma parse_m_thread (m : QXmppMessage) (e : QDomElement) :
  m_thread (parse m e) = text (firstChildElement e "thread").
Proof. parse_fields. Qed.

Lemma parse_m_receiptRequested (m : QXmppMessage) (e : QDomElement) :
  m_receiptRequested (parse m e)
  = String.eqb (namespaceURI (firstChildElement e "request")) ns_message_receipts.
Proof. parse_fields. Qed.

Lemma parse_m_attentionRequested (m : QXmppMessage) (e : QDomElement) :
  m_attentionRequested (parse m e)
  = String.eqb (namespaceURI (firstChildElement e "attention")) ns_attention.
Proof. parse_fields. Qed.

Lemma parse_error (m : QXmppMessage) (e : QDomElement) :
  error (parse m e)
  = match firstChildElement e "error" with
    | Some n => Some (mkQXmppElement n (namespaceURI e))
    | None => None
    end.
Proof. parse_fields. Qed.

(** The stamp, its kind and the extensions are what the loop over the [x]
    children leaves, started from the outcome of the [delay] look-up. *)
Lemma parse_stamp_extensions (m : QXmppMessage) (e : QDomElement) :
  (m_stamp (parse m e), m_stampType (parse m e), extensions (parse m e))
  = parse_xs (fst (parse_delay (m_stamp m) (m_stampType m) e))
             (snd (parse_delay (m_stamp m) (m_stampType m) e)) e.
Proof.
  unfold parse.
  destruct (parse_delay (m_stamp m) (m_stampType m) e) as [s1 t1]. simpl.
  destruct (parse_xs s1 t1 e) as [[s2 t2] ex]. reflexivity.
Qed.

End Properties.

(** *** Construction and setters *)

(** C2 (as amended): a directly constructed message has type [Chat], the
    value the constructor's initialiser list names, whatever its
    arguments. *)
Theorem constructed_type_is_chat (from to body thread : string) :
  m_type (QXmppMessage_ctor from to body thread) = Chat.
Proof. reflexivity. Qed.

(** C2, as stated, fails: the default-constructed message does not have
    type [Normal]. *)
Lemma constructed_type_not_normal :
  m_type (QXmppMessage_ctor EmptyString EmptyString EmptyString EmptyString) <> Normal.
Proof. simpl. discriminate. Qed.

Lemma generated_id_not_empty (n : N) (s : QXmppStanza) :
  isEmpty (st_id (snd (generateAndSetNextId n s))) = false.
Proof. reflexivity. Qed.

Lemma numberToString_injective (n1 n2 : N) :
  numberToString n1 = numberToString n2 -> n1 = n2.
Proof.
  unfold numberToString. intros H.
  apply (f_equal DecimalString.NilEmpty.uint_of_string) in H.
  rewrite !DecimalString.NilEmpty.usu in H. injection H as H.
  apply (f_equal N.of_uint) in H.
  rewrite !DecimalN.Unsigned.of_to in H. exact H.
Qed.

(** Ids generated at different values of the counter differ. *)
Lemma generated_ids_distinct (n1 n2 : N) (s1 s2 : QXmppStanza) :
  n1 <> n2 ->
  st_id (snd (generateAndSetNextId n1 s1)) <> st_id (snd (generateAndSetNextId n2 s2)).
Proof.
  intros Hn H. simpl in H. injection H as H.
  apply numberToString_injective in H. apply N.succ_inj in H. contradiction.
Qed.

(** C9: requesting a receipt on a message without an id gives it the next
    generated id, which is not empty and differs from the id generated at
    any other value of the counter; on a message with an id, and whenever
    the receipt is not requested, the id stays as it was. *)
Theorem setReceiptRequested_id (uniqueIdNo : N) (m : QXmppMessage) :
  (isEmpty (id m) = true ->
     id (snd (setReceiptRequested uniqueIdNo m true))
       = st_id (snd (generateAndSetNextId uniqueIdNo (base m)))
     /\ isEmpty (id (snd (setReceiptRequested uniqueIdNo m true))) = false
     /\ fst (setReceiptRequested uniqueIdNo m true) = N.succ uniqueIdNo
     /\ (forall n s, n <> uniqueIdNo ->
           st_id (snd (generateAndSetNextId n s))
           <> id (snd (setReceiptRequested uniqueIdNo m true))))
  /\ (isEmpty (id m) = false ->
        id (snd (setReceiptRequested uniqueIdNo m true)) = id m
        /\ fst (setReceiptRequested uniqueIdNo m true) = uniqueIdNo)
  /\ id (snd (setReceiptRequested uniqueIdNo m false)) = id m.
Proof.
  unfold setReceiptRequested, id. cbn [base andb].
  split; [| split].
  - intros H. rewrite H. cbn [fst snd withBase base].
    repeat split.
    intros n s Hn. change (st_id (setId (base m)
                                    ("qxmpp" ++ numberToString (N.succ uniqueIdNo))%string))
      with (st_id (snd (generateAndSetNextId uniqueIdNo (base m)))).
    apply generated_ids_distinct. exact Hn.
  - intros H. rewrite H. split; reflexivity.
  - reflexivity.
Qed.

Lemma setReceiptRequested_id_witness :
  isEmpty (id sampleMessage) = true
  /\ isEmpty (id (snd (setReceiptRequested 41 sampleMessage true))) = false.
Proof.
  split; [reflexivity |].
  apply (proj1 (setReceiptRequested_id 41 sampleMessage)). reflexivity.
Defined.

Example setReceiptRequested_sample :
  id (snd (setReceiptRequested 41 sampleMessage true)) = "qxmpp42".
Proof. vm_compute. reflexivity. Qed.

(** *** Encoding *)

Section Encoding.

Context {K : Externals}.

(** C8 (as amended): with attention requested and the receipt id "msg1",
    the encoder writes the [received] child and the [attention] child, the
    [received] child first; between them stands only the [request] child,
    if any, and after them only the stored extensions. *)
Theorem toXml_received_before_attention (m : QXmppMessage) :
  m_attentionRequested m = true ->
  m_receiptId m = "msg1" ->
  exists pre,
    outContent (toXml m)
    = pre ++ receivedElement "msg1" :: toXml_request m
          ++ attentionElement :: toXml_extensions m.
Proof.
  intros Hatt Hid.
  exists (toXml_subject m ++ toXml_body m ++ toXml_thread m
          ++ Error_toXml (error m)
          ++ toXml_state m ++ toXml_xhtml m ++ toXml_stamp m).
  simpl. unfold toXml_children, toXml_received, toXml_attention.
  rewrite Hatt, Hid. simpl.
  repeat rewrite <- app_assoc. reflexivity.
Qed.

End Encoding.

Section EncodingSamples.

#[local] Existing Instance Sample.externals.

Lemma toXml_received_before_attention_witness :
  exists pre,
    outContent (toXml attentionReceipt)
    = pre ++ receivedElement "msg1" :: toXml_request attentionReceipt
          ++ attentionElement :: toXml_extensions attentionReceipt.
Proof.
  apply (toXml_received_before_attention attentionReceipt); reflexivity.
Defined.

(** C8, as stated, fails: in the encoding of a message with attention
    requested and receipt id "msg1" no [attention] child comes before a
    [received] child. *)
Lemma toXml_attention_not_before_received :
  ~ exists pre mid post,
      outContent (toXml attentionReceipt)
      = pre ++ attentionElement :: mid ++ receivedElement "msg1" :: post.
Proof.
  intros (pre & mid & post & H). vm_compute in H.
  destruct pre as [| a [| b pre]]; simpl in H.
  - discriminate H.
  - injection H as _ H. destruct mid; discriminate H.
  - injection H as _ _ H. destruct pre; discriminate H.
Qed.

Example toXml_attentionReceipt :
  toXml attentionReceipt
  = XElement "message" [("type", "chat")]
      [XElement "received" [("xmlns", "urn:xmpp:receipts"); ("id", "msg1")] [];
       XElement "attention" [("xmlns", "urn:xmpp:attention:0")] []].
Proof. vm_compute. reflexivity. Qed.

End EncodingSamples.

(** *** Decoding: look-ups *)

Section Lookups.

Context {K : Externals}.

Lemma firstChildElement_found (e : QDomElement) (name : string) (c : QDomNode) :
  firstChildElement e name = Some c ->
  In c (childNodes e) /\ isElementNamed name c = true.
Proof. unfold firstChildElement. apply find_some. Qed.

Lemma found_not_null (e : QDomElement) (name : string) (c : QDomNode) :
  firstChildElement e name = Some c -> isNull (Some c) = false.
Proof.
  intros H. apply firstChildElement_found in H as [_ H].
  destruct c; [reflexivity | discriminate H].
Qed.

(** A look-up cannot succeed in a namespace no child of that name has. *)
Lemma firstChildIn_hasChildIn (e : QDomElement) (name ns : string) :
  firstChildIn e name ns = true -> hasChildIn e name ns = true.
Proof.
  unfold firstChildIn, hasChildIn. intros H.
  destruct (firstChildElement e name) as [c |] eqn:E; [| discriminate H].
  apply firstChildElement_found in E as [Hin Hname].
  apply existsb_exists. exists c. split; [exact Hin |].
  apply andb_true_iff in H as [_ H]. rewrite Hname, H. reflexivity.
Qed.

Lemma hasChildIn_false_first (e : QDomElement) (name ns : string) :
  hasChildIn e name ns = false -> firstChildIn e name ns = false.
Proof.
  intros H. destruct (firstChildIn e name ns) eqn:E; [| reflexivity].
  apply firstChildIn_hasChildIn in E. congruence.
Qed.

Lemma stateMatches_firstChildIn (e : QDomElement) (i : nat) :
  stateMatches e i = firstChildIn e (nth i chat_states EmptyString) ns_chat_states.
Proof. reflexivity. Qed.

Lemma parse_state_no_match (s : State) (e : QDomElement) :
  firstChildIn e "active" ns_chat_states = false ->
  firstChildIn e "inactive" ns_chat_states = false ->
  firstChildIn e "gone" ns_chat_states = false ->
  firstChildIn e "composing" ns_chat_states = false ->
  firstChildIn e "paused" ns_chat_states = false ->
  parse_state s e = s.
Proof.
  intros H1 H2 H3 H4 H5. unfold parse_state. simpl.
  rewrite !stateMatches_firstChildIn. simpl.
  rewrite H1, H2, H3, H4, H5. reflexivity.
Qed.

Lemma noChatStateChild_first (e : QDomElement) (name : string) :
  noChatStateChild e = true ->
  In name chatStateNames ->
  firstChildIn e name ns_chat_states = false.
Proof.
  unfold noChatStateChild. intros H Hin.
  rewrite forallb_forall in H. specialize (H name Hin).
  apply hasChildIn_false_first. destruct (hasChildIn e name ns_chat_states);
    [discriminate H | reflexivity].
Qed.

Lemma parse_state_noChatStateChild (s : State) (e : QDomElement) :
  noChatStateChild e = true -> parse_state s e = s.
Proof.
  intros H.
  apply parse_state_no_match; apply noChatStateChild_first; simpl; auto 6.
Qed.

(** The loop over the [x] children: the last legacy delay decides the stamp
    and its kind, the other [x] children are appended in their order. *)
Lemma parse_x_loop (parentNs : string) (l : list QDomNode) :
  forall (stamp : QDateTime) (stampType : StampType) (ext : list QXmppElement),
  fold_left (parse_x parentNs) l (stamp, stampType, ext)
  = (match lastOf (filter (fun c => String.eqb (namespaceURI (Some c))
                                       ns_legacy_delayed_delivery) l) with
     | Some x => legacyStamp x
     | None => stamp
     end,
     match lastOf (filter (fun c => String.eqb (namespaceURI (Some c))
                                       ns_legacy_delayed_delivery) l) with
     | Some _ => LegacyDelayedDelivery
     | None => stampType
     end,
     ext ++ map (fun c => mkQXmppElement c parentNs)
           (filter (fun c => negb (String.eqb (namespaceURI (Some c))
                                     ns_legacy_delayed_delivery)) l)).
Proof.
  induction l as [| c r IH]; intros stamp stampType ext.
  - simpl. rewrite app_nil_r. reflexivity.
  - cbn [fold_left filter]. unfold parse_x at 2.
    destruct (String.eqb (namespaceURI (Some c)) ns_legacy_delayed_delivery) eqn:E;
      rewrite IH; cbn [negb lastOf map].
    + destruct (lastOf _); reflexivity.
    + rewrite <- app_assoc. reflexivity.
Qed.

Lemma legacy_among_x (kids : list QDomNode) :
  filter (fun c => String.eqb (namespaceURI (Some c)) ns_legacy_delayed_delivery)
         (filter (isElementNamed "x") kids)
  = filter isLegacyDelay kids.
Proof.
  induction kids as [| c r IH]; [reflexivity |].
  cbn [filter].
  assert (E : isLegacyDelay c
              = isElementNamed "x" c
                && String.eqb (namespaceURI (Some c)) ns_legacy_delayed_delivery)
    by reflexivity.
  rewrite E.
  destruct (isElementNamed "x" c); cbn [filter andb]; rewrite IH; reflexivity.
Qed.

Lemma parse_xs_result (stamp : QDateTime) (stampType : StampType) (e : QDomElement) :
  parse_xs stamp stampType e
  = (match lastOf (legacyDelayChildren e) with
     | Some x => legacyStamp x
     | None => stamp
     end,
     match lastOf (legacyDelayChildren e) with
     | Some _ => LegacyDelayedDelivery
     | None => stampType
     end,
     map (fun c => mkQXmppElement c (namespaceURI e)) (otherXChildren e)).
Proof.
  unfold parse_xs. rewrite parse_x_loop. unfold childElementsNamed.
  rewrite legacy_among_x. reflexivity.
Qed.

Lemma parse_m_stamp (m : QXmppMessage) (e : QDomElement) :
  m_stamp (parse m e)
  = match lastOf (legacyDelayChildren e) with
    | Some x => legacyStamp x
    | None => fst (parse_delay (m_stamp m) (m_stampType m) e)
    end.
Proof.
  pose proof (parse_stamp_extensions m e) as H.
  rewrite parse_xs_result in H. injection H as H _ _. exact H.
Qed.

Lemma parse_m_stampType (m : QXmppMessage) (e : QDomElement) :
  m_stampType (parse m e)
  = match lastOf (legacyDelayChildren e) with
    | Some _ => LegacyDelayedDelivery
    | None => snd (parse_delay (m_stamp m) (m_stampType m) e)
    end.
Proof.
  pose proof (parse_stamp_extensions m e) as H.
  rewrite parse_xs_result in H. injection H as _ H _. exact H.
Qed.

Lemma parse_extensions (m : QXmppMessage) (e : QDomElement) :
  extensions (parse m e)
  = map (fun c => mkQXmppElement c (namespaceURI e)) (otherXChildren e).
Proof.
  pose proof (parse_stamp_extensions m e) as H.
  rewrite parse_xs_result in H. injection H as _ _ H. exact H.
Qed.

Lemma lastOf_In {A : Type} (l : list A) (a : A) : lastOf l = Some a -> In a l.
Proof.
  induction l as [| b r IH]; simpl; [discriminate |].
  destruct (lastOf r) as [c |]; intros H; injection H as H; subst.
  - right. apply IH. reflexivity.
  - left. reflexivity.
Qed.


Lemma lastOf_none {A : Type} (l : list A) : lastOf l = None -> l = [].
Proof.
  destruct l as [| b r]; simpl; [reflexivity |].
  destruct (lastOf r); discriminate.
Qed.

Lemma parse_delay_no_modern (stamp : QDateTime) (stampType : StampType) (e : QDomElement) :
  firstChildIn e "delay" ns_delayed_delivery = false ->
  parse_delay stamp stampType e = (stamp, stampType).
Proof.
  unfold firstChildIn, parse_delay. intros H. rewrite H. reflexivity.
Qed.

Lemma no_legacy_children (e : QDomElement) :
  hasChildIn e "x" ns_legacy_delayed_delivery = false ->
  legacyDelayChildren e = [].
Proof.
  unfold hasChildIn, legacyDelayChildren, isLegacyDelay. intros H.
  induction (childNodes e) as [| c r IH]; simpl in *; [reflexivity |].
  apply orb_false_iff in H as [H1 H2]. rewrite H1. auto.
Qed.

End Lookups.

(** *** Decoding: chat state, receipts, delays, extensions *)

Section Decoding.

Context {K : Externals}.

(** C10: [parse] does not reset the chat state or the stamp.  On an element
    without a chat-state child in the chat-states namespace the chat state
    keeps its previous value; on an element with neither a [delay] child in
    the delayed-delivery namespace nor an [x] child in the legacy one, the
    stamp and its kind keep theirs.  Only because a freshly constructed
    message starts from [None_] and the null date-time does decoding such
    elements give "no chat state" and "no stamp". *)
Theorem parse_keeps_state_and_stamp (m : QXmppMessage) (e : QDomElement) :
  (noChatStateChild e = true ->
     m_state (parse m e) = m_state m /\ m_state (decode e) = None_)
  /\ (hasChildIn e "delay" ns_delayed_delivery = false ->
      hasChildIn e "x" ns_legacy_delayed_delivery = false ->
      m_stamp (parse m e) = m_stamp m
      /\ m_stampType (parse m e) = m_stampType m
      /\ isValid (m_stamp (decode e)) = false).
Proof.
  split.
  - intros H. unfold decode. rewrite !parse_m_state.
    rewrite !parse_state_noChatStateChild by exact H. split; reflexivity.
  - intros Hd Hx. unfold decode.
    rewrite !parse_m_stamp, !parse_m_stampType.
    rewrite (no_legacy_children e Hx). cbn [lastOf].
    rewrite !parse_delay_no_modern by (apply hasChildIn_false_first; exact Hd).
    repeat split; reflexivity.
Qed.

(** C6 (as amended): when the first child named [received] lies in the
    receipts namespace, the receipt id is its [id] attribute, or the
    stanza's own id if that attribute is empty; otherwise, and so whenever
    no [received] child lies in the receipts namespace, the receipt id is
    cleared. *)
Theorem parse_receiptId_first_received (m : QXmppMessage) (e : QDomElement) :
  (firstChildIn e "received" ns_message_receipts = true ->
     (isEmpty (attribute (firstChildElement e "received") "id") = false ->
        m_receiptId (parse m e) = attribute (firstChildElement e "received") "id")
     /\ (isEmpty (attribute (firstChildElement e "received") "id") = true ->
           m_receiptId (parse m e) = id (parse m e)
           /\ id (parse m e) = attribute e "id"))
  /\ (firstChildIn e "received" ns_message_receipts = false ->
        m_receiptId (parse m e) = EmptyString)
  /\ (hasChildIn e "received" ns_message_receipts = false ->
        m_receiptId (parse m e) = EmptyString).
Proof.
  rewrite parse_m_receiptId, parse_id. unfold parse_receiptId.
  assert (Hfirst : firstChildIn e "received" ns_message_receipts = false ->
                   (if negb (isNull (firstChildElement e "received"))
                       && String.eqb (namespaceURI (firstChildElement e "received"))
                                     ns_message_receipts
                    then if isEmpty (attribute (firstChildElement e "received") "id")
                         then attribute e "id"
                         else attribute (firstChildElement e "received") "id"
                    else EmptyString) = EmptyString).
  { unfold firstChildIn. intros H. rewrite H. reflexivity. }
  split; [| split].
  - unfold firstChildIn. intros H. rewrite H.
    split; intros Hid; rewrite Hid; auto.
  - exact Hfirst.
  - intros H. apply Hfirst. apply hasChildIn_false_first. exact H.
Qed.

(** C7 (as amended): when the first child named [composing] lies in the
    chat-states namespace and no look-up for [active], [inactive] or [gone]
    succeeds before it, the chat state is [Composing]; decoding an element
    with no chat-state child in the chat-states namespace gives [None_]. *)
Theorem parse_state_composing (m : QXmppMessage) (e : QDomElement) :
  (firstChildIn e "composing" ns_chat_states = true ->
   firstChildIn e "active" ns_chat_states = false ->
   firstChildIn e "inactive" ns_chat_states = false ->
   firstChildIn e "gone" ns_chat_states = false ->
   m_state (parse m e) = Composing)
  /\ (noChatStateChild e = true -> m_state (decode e) = None_).
Proof.
  split.
  - intros Hc Ha Hi Hg. rewrite parse_m_state. unfold parse_state. simpl.
    rewrite !stateMatches_firstChildIn. simpl. rewrite Ha, Hi, Hg, Hc. reflexivity.
  - intros H. unfold decode. rewrite parse_m_state.
    rewrite parse_state_noChatStateChild by exact H. reflexivity.
Qed.

Lemma legacyDelayChildren_In (e : QDomElement) (x : QDomNode) :
  In x (legacyDelayChildren e) <-> In x (childNodes e) /\ isLegacyDelay x = true.
Proof. unfold legacyDelayChildren. apply filter_In. Qed.


Lemma toXml_stamp_invalid (m : QXmppMessage) :
  isValid (m_stamp m) = false -> toXml_stamp m = [].
Proof. unfold toXml_stamp. intros H. rewrite H. reflexivity. Qed.

Lemma modern_not_legacy (c : QDomNode) :
  isLegacyDelay c = true -> isModernDelay c = false.
Proof.
  unfold isLegacyDelay, isModernDelay. destruct c as [t ns a k | s]; simpl.
  - intros H. apply andb_true_iff in H as [H _]. apply String.eqb_eq in H.
    subst t. reflexivity.
  - discriminate.
Qed.

(** A valid decoded stamp is always the stamp read from a delay child. *)
Lemma decode_stamp_source (e : QDomElement) :
  isValid (m_stamp (decode e)) = true ->
  exists c, In c (childNodes e) /\ isDelayChild c = true
            /\ m_stamp (decode e) = delayStamp c.
Proof.
  unfold decode. rewrite parse_m_stamp.
  destruct (lastOf (legacyDelayChildren e)) as [x |] eqn:Hlast.
  - intros _. apply lastOf_In in Hlast.
    apply legacyDelayChildren_In in Hlast as [Hin Hleg].
    exists x. unfold isDelayChild, delayStamp.
    rewrite Hleg, (modern_not_legacy x Hleg), orb_true_r. auto.
  - unfold parse_delay.
    destruct (firstChildElement e "delay") as [c |] eqn:E; [| discriminate].
    destruct (negb (isNull (Some c))
              && String.eqb (namespaceURI (Some c)) ns_delayed_delivery) eqn:Ens;
      [| discriminate].
    intros _. apply firstChildElement_found in E as [Hin Hname].
    apply andb_true_iff in Ens as [_ Ens].
    assert (Hmod : isModernDelay c = true)
      by (unfold isModernDelay; rewrite Hname, Ens; reflexivity).
    exists c. unfold isDelayChild, delayStamp. rewrite Hmod. auto.
Qed.

Lemma decode_stamp_invalid (e : QDomElement) :
  (forall c, In c (childNodes e) -> isDelayChild c = true -> stampParses c = false) ->
  isValid (m_stamp (decode e)) = false.
Proof.
  intros H. destruct (isValid (m_stamp (decode e))) eqn:E; [| reflexivity].
  destruct (decode_stamp_source e E) as (c & Hin & Hd & Hs).
  specialize (H c Hin Hd). unfold stampParses in H. congruence.
Qed.

Lemma nodeToXml_name (parentNs : string) (c : QDomNode) (name : string) :
  isElementNamed name c = true -> outName (nodeToXml parentNs c) = name.
Proof.
  destruct c as [t ns a k | s]; simpl; [| discriminate].
  intros H. apply String.eqb_eq in H. exact H.
Qed.

Lemma otherXChildren_In (e : QDomElement) (c : QDomNode) :
  In c (otherXChildren e) ->
  In c (childNodes e) /\ isElementNamed "x" c = true
  /\ String.eqb (namespaceURI (Some c)) ns_legacy_delayed_delivery = false.
Proof.
  unfold otherXChildren, childElementsNamed. intros H.
  apply filter_In in H as [H1 H2]. apply filter_In in H1 as [H0 H1].
  repeat split; auto. destruct (String.eqb _ _); [discriminate H2 | reflexivity].
Qed.

Lemma toXml_extensions_parse (m : QXmppMessage) (e : QDomElement) :
  toXml_extensions (parse m e)
  = map (nodeToXml (namespaceURI e)) (otherXChildren e).
Proof.
  unfold toXml_extensions. rewrite parse_extensions, map_map. reflexivity.
Qed.

(** With an invalid decoded stamp, the only children named [delay] or [x]
    that the encoder writes are the [x] children passed through. *)
Lemma decode_output_without_stamp (e : QDomElement) :
  isValid (m_stamp (decode e)) = false ->
  forall o, In o (outContent (toXml (decode e))) ->
            outName o = "delay" \/ outName o = "x" ->
            exists c, In c (otherXChildren e) /\ o = nodeToXml (namespaceURI e) c.
Proof.
  intros Hinv o Hin Hname. simpl in Hin. unfold toXml_children in Hin.
  rewrite (toXml_stamp_invalid _ Hinv) in Hin.
  unfold decode in Hin. rewrite toXml_extensions_parse, parse_error in Hin.
  fold (decode e) in Hin.
  repeat (apply in_app_or in Hin as [Hin | Hin]).
  - unfold toXml_subject in Hin. destruct (negb _); simpl in Hin;
      [destruct Hin as [<- | []]; simpl in Hname; destruct Hname; discriminate | destruct Hin].
  - unfold toXml_body in Hin. destruct (negb _); simpl in Hin;
      [destruct Hin as [<- | []]; simpl in Hname; destruct Hname; discriminate | destruct Hin].
  - unfold toXml_thread in Hin. destruct (negb _); simpl in Hin;
      [destruct Hin as [<- | []]; simpl in Hname; destruct Hname; discriminate | destruct Hin].
  - destruct (firstChildElement e "error") as [n |] eqn:E; simpl in Hin; [| destruct Hin].
    destruct Hin as [<- | []]. apply firstChildElement_found in E as [_ E].
    unfold QXmppElement_toXml in Hname. simpl in Hname.
    rewrite (nodeToXml_name _ _ _ E) in Hname. destruct Hname; discriminate.
  - unfold toXml_state in Hin. destruct (m_state (decode e)); simpl in Hin;
      try (destruct Hin as [<- | []]; simpl in Hname; destruct Hname; discriminate);
      destruct Hin.
  - unfold toXml_xhtml in Hin. destruct (negb _); simpl in Hin;
      [destruct Hin as [<- | []]; simpl in Hname; destruct Hname; discriminate | destruct Hin].
  - destruct Hin.
  - unfold toXml_received in Hin. destruct (negb _); simpl in Hin;
      [destruct Hin as [<- | []]; simpl in Hname; destruct Hname; discriminate | destruct Hin].
  - unfold toXml_request in Hin. destruct (m_receiptRequested _); simpl in Hin;
      [destruct Hin as [<- | []]; simpl in Hname; destruct Hname; discriminate | destruct Hin].
  - unfold toXml_attention in Hin. destruct (m_attentionRequested _); simpl in Hin;
      [destruct Hin as [<- | []]; simpl in Hname; destruct Hname; discriminate | destruct Hin].
  - apply in_map_iff in Hin as (c & <- & Hc). exists c. auto.
Qed.

Lemma decidingDelayChild_is_child (e : QDomElement) (c : QDomNode) :
  decidingDelayChild e = Some c -> In c (childNodes e) /\ isDelayChild c = true.
Proof.
  unfold decidingDelayChild, isDelayChild.
  destruct (lastOf (legacyDelayChildren e)) as [x |] eqn:Hlast.
  - intros H. injection H as <-. apply lastOf_In in Hlast.
    apply legacyDelayChildren_In in Hlast as [Hin Hleg].
    rewrite Hleg, orb_true_r. auto.
  - destruct (firstChildElement e "delay") as [d |] eqn:E; [| discriminate].
    destruct (isModernDelay d) eqn:Hm; [| discriminate].
    intros H. injection H as <-. apply firstChildElement_found in E as [Hin _].
    rewrite Hm. auto.
Qed.

Lemma decode_stamp_decided (e : QDomElement) :
  m_stamp (decode e)
  = match decidingDelayChild e with
    | Some c => delayStamp c
    | None => nullDateTime
    end.
Proof.
  unfold decode, decidingDelayChild. rewrite parse_m_stamp.
  destruct (lastOf (legacyDelayChildren e)) as [x |] eqn:Hlast.
  - apply lastOf_In in Hlast. apply legacyDelayChildren_In in Hlast as [_ Hleg].
    unfold delayStamp. rewrite (modern_not_legacy x Hleg). reflexivity.
  - unfold parse_delay.
    destruct (firstChildElement e "delay") as [d |] eqn:E; [| reflexivity].
    apply firstChildElement_found in E as [_ Hname].
    unfold delayStamp, isModernDelay, modernStamp.
    destruct d as [t ns a k | t]; [| discriminate Hname].
    cbn [isNull negb andb namespaceURI fst]. rewrite Hname.
    destruct (String.eqb ns ns_delayed_delivery) eqn:Hns;
      cbn [andb fst namespaceURI]; [| reflexivity].
    rewrite Hname, Hns. reflexivity.
Qed.

(** C4 (as amended): the decoded stamp is the stamp of the deciding delay
    child (the last legacy [x] child if there is one, else the first
    [delay] child when it lies in the delayed-delivery namespace) and the
    null date-time when there is none.  So when the deciding child's stamp
    cannot be parsed, and in particular when no delay child's stamp can,
    the decoded stamp is invalid, never a fallback; the encoder writes
    nothing for an invalid stamp, and the only children named [delay] or
    [x] it then writes are the non-legacy [x] children passed through. *)
Theorem unparseable_deciding_stamp_is_absent (e : QDomElement) :
  m_stamp (decode e)
  = match decidingDelayChild e with
    | Some c => delayStamp c
    | None => nullDateTime
    end
  /\ (forall c, decidingDelayChild e = Some c ->
        In c (childNodes e) /\ isDelayChild c = true)
  /\ (forall c, decidingDelayChild e = Some c -> stampParses c = false ->
        isValid (m_stamp (decode e)) = false /\ toXml_stamp (decode e) = [])
  /\ ((forall c, In c (childNodes e) -> isDelayChild c = true -> stampParses c = false) ->
        isValid (m_stamp (decode e)) = false /\ toXml_stamp (decode e) = [])
  /\ (isValid (m_stamp (decode e)) = false ->
        forall o, In o (outContent (toXml (decode e))) ->
                  outName o = "delay" \/ outName o = "x" ->
                  exists c, In c (otherXChildren e) /\ o = nodeToXml (namespaceURI e) c)
  /\ (forall m, isValid (m_stamp m) = false -> toXml_stamp m = []).
Proof.
  split; [apply decode_stamp_decided |].
  split; [apply decidingDelayChild_is_child |].
  split; [| split; [| split]].
  - intros c Hc Hbad.
    assert (Hinv : isValid (m_stamp (decode e)) = false)
      by (rewrite decode_stamp_decided, Hc; exact Hbad).
    split; [exact Hinv | apply toXml_stamp_invalid; exact Hinv].
  - intros H. pose proof (decode_stamp_invalid e H) as Hinv.
    split; [exact Hinv | apply toXml_stamp_invalid; exact Hinv].
  - apply decode_output_without_stamp.
  - apply toXml_stamp_invalid.
Qed.

(** C5 (as amended): the extensions of a parsed message are exactly the
    children named [x] that lie outside the legacy delayed-delivery
    namespace, copied in document order; the encoder writes them as its
    last children, unchanged and in that order.  Children with any other
    name are not stored. *)
Theorem x_children_pass_through (m : QXmppMessage) (e : QDomElement) :
  extensions (parse m e)
  = map (fun c => mkQXmppElement c (namespaceURI e)) (otherXChildren e)
  /\ exists pre,
       outContent (toXml (parse m e))
       = pre ++ map (nodeToXml (namespaceURI e)) (otherXChildren e).
Proof.
  split; [apply parse_extensions |].
  exists (toXml_subject (parse m e) ++ toXml_body (parse m e)
          ++ toXml_thread (parse m e) ++ Error_toXml (error (parse m e))
          ++ toXml_state (parse m e) ++ toXml_xhtml (parse m e)
          ++ toXml_stamp (parse m e) ++ toXml_received (parse m e)
          ++ toXml_request (parse m e) ++ toXml_attention (parse m e)).
  simpl. unfold toXml_children. rewrite toXml_extensions_parse.
  repeat rewrite <- app_assoc. reflexivity.
Qed.

End Decoding.

(** *** Decoding on concrete stanzas *)

Section DecodingSamples.

#[local] Existing Instance Sample.externals.

Lemma parse_keeps_state_and_stamp_witness :
  m_state (parse typingMessage plainStanza) = Composing
  /\ m_stamp (parse typingMessage plainStanza) = noon.
Proof.
  split.
  - exact (proj1 (proj1 (parse_keeps_state_and_stamp typingMessage plainStanza)
                        eq_refl)).
  - exact (proj1 (proj2 (parse_keeps_state_and_stamp typingMessage plainStanza)
                        eq_refl eq_refl)).
Defined.

Lemma parse_receiptId_first_received_witness :
  m_receiptId (parse emptyMessage receiptStanza) = "a"
  /\ m_receiptId (parse emptyMessage oldReceiptStanza) = "m1"
  /\ m_receiptId (parse (setReceiptId emptyMessage "old") plainStanza) = EmptyString.
Proof.
  split; [| split].
  - exact (proj1 (proj1 (parse_receiptId_first_received emptyMessage receiptStanza)
                        eq_refl) eq_refl).
  - exact (proj1 (proj2 (proj1 (parse_receiptId_first_received emptyMessage
                                  oldReceiptStanza) eq_refl) eq_refl)).
  - exact (proj2 (proj2 (parse_receiptId_first_received
                           (setReceiptId emptyMessage "old") plainStanza)) eq_refl).
Defined.

(** C6, as stated, fails: the element has a [received] child in the
    receipts namespace whose [id] attribute is "a", yet the decoded receipt
    id is empty, because a [received] child of another namespace comes
    first and the look-up stops at it. *)
Lemma received_in_namespace_missed :
  In shadowedReceipt (childNodes shadowedReceiptStanza)
  /\ isElementNamed "received" shadowedReceipt = true
  /\ namespaceURI (Some shadowedReceipt) = ns_message_receipts
  /\ attribute (Some shadowedReceipt) "id" = "a"
  /\ m_receiptId (decode shadowedReceiptStanza) = EmptyString
  /\ m_receiptId (decode shadowedReceiptStanza) <> attribute (Some shadowedReceipt) "id".
Proof.
  repeat split; try reflexivity.
  - right. left. reflexivity.
  - vm_compute. discriminate.
Qed.

Lemma parse_state_composing_witness :
  m_state (parse emptyMessage composingStanza) = Composing
  /\ m_state (decode plainStanza) = None_.
Proof.
  split.
  - exact (proj1 (parse_state_composing emptyMessage composingStanza)
                 eq_refl eq_refl eq_refl eq_refl).
  - exact (proj2 (parse_state_composing emptyMessage plainStanza) eq_refl).
Defined.

(** C7, as stated, fails: the element has a child named [composing] in the
    chat-states namespace, yet decoding it gives [None_], because a
    [composing] child of another namespace comes first. *)
Lemma composing_in_namespace_missed :
  hasChildIn shadowedComposingStanza "composing" ns_chat_states = true
  /\ m_state (decode shadowedComposingStanza) = None_
  /\ m_state (decode shadowedComposingStanza) <> Composing.
Proof.
  repeat split; try reflexivity. vm_compute. discriminate.
Qed.

(** The order of the table decides between two chat-state children. *)
Example active_wins_over_composing :
  m_state (decode (stanza []
             [chatState "composing" "http://jabber.org/protocol/chatstates";
              chatState "active" "http://jabber.org/protocol/chatstates"]))
  = Active.
Proof. vm_compute. reflexivity. Qed.


Example modern_delay_alone :
  m_stampType (decode (stanza [] [modernDelay "2002-09-10T23:08:25Z"])) = DelayedDelivery
  /\ m_stamp (decode (stanza [] [modernDelay "2002-09-10T23:08:25Z"]))
     = mkDateTime (Some (mkDate 2002 9 10)) (Some (mkTime 23 8 25 0)) UTC.
Proof. vm_compute. split; reflexivity. Qed.

Lemma unparseable_deciding_stamp_is_absent_witness :
  (isValid (m_stamp (decode lateBadStanza)) = false
   /\ toXml_stamp (decode lateBadStanza) = [])
  /\ (isValid (m_stamp (decode badDelayStanza)) = false
      /\ toXml_stamp (decode badDelayStanza) = []).
Proof.
  split.
  - exact (proj1 (proj2 (proj2 (unparseable_deciding_stamp_is_absent lateBadStanza)))
                 (legacyDelay "last week") eq_refl eq_refl).
  - apply (proj1 (proj2 (proj2 (proj2
             (unparseable_deciding_stamp_is_absent badDelayStanza))))).
    intros c [<- | [<- | [<- | []]]] Hd;
      first [discriminate Hd | vm_compute; reflexivity].
Defined.

(** C4, as stated, fails: the element has a [delay] child of the
    delayed-delivery namespace whose stamp cannot be parsed, yet the decoded
    stamp is valid (it is the stamp of the legacy [x] child beside it) and
    the encoder writes a legacy [x] child for it. *)
Lemma unparseable_delay_beside_parseable_x :
  In (modernDelay "yesterday") (childNodes mixedDelaysStanza)
  /\ isDelayChild (modernDelay "yesterday") = true
  /\ stampParses (modernDelay "yesterday") = false
  /\ isValid (m_stamp (decode mixedDelaysStanza)) = true
  /\ toXml_stamp (decode mixedDelaysStanza)
     = [XElement "x" [("xmlns", "jabber:x:delay"); ("stamp", "20090110T08:21:05")] []].
Proof.
  repeat split; try reflexivity. left. reflexivity.
Qed.

(** C5, as stated, fails: [geoloc] is a child the codec does not interpret,
    yet decoding stores no extension for it and the encoding of the decoded
    message has no child at all. *)
Lemma uninterpreted_child_dropped :
  In geoloc (childNodes (stanza [("type", "chat")] [geoloc]))
  /\ forallb (fun name => negb (isElementNamed name geoloc)) interpretedNames = true
  /\ extensions (decode (stanza [("type", "chat")] [geoloc])) = []
  /\ outContent (toXml (decode (stanza [("type", "chat")] [geoloc]))) = [].
Proof.
  repeat split; try reflexivity. left. reflexivity.
Qed.

Example x_children_kept_in_order :
  outContent (toXml (decode
    (stanza [("type", "chat")]
            [conference; legacyDelay "20090110T08:21:05"; geoloc; muc])))
  = [XElement "x" [("xmlns", "jabber:x:delay"); ("stamp", "20090110T08:21:05")] [];
     XElement "x" [("xmlns", "jabber:x:conference"); ("jid", "room@chat.example")] [];
     XElement "x" [("xmlns", "http://jabber.org/protocol/muc#user")] []].
Proof. vm_compute. reflexivity. Qed.

End DecodingSamples.

(** *** Round trip on the encoder's own layout *)

Section RoundTrip.

Context {K : Externals}.

(** **** Look-ups among the children of the layout *)

Lemma find_app_none {A : Type} (p : A -> bool) (l1 l2 : list A) :
  find p l1 = None -> find p (l1 ++ l2) = find p l2.
Proof.
  induction l1 as [| a r IH]; simpl; [reflexivity |].
  destruct (p a); [discriminate | exact IH].
Qed.

Lemma find_app_some {A : Type} (p : A -> bool) (l1 l2 : list A) (a : A) :
  find p l1 = Some a -> find p (l1 ++ l2) = Some a.
Proof.
  induction l1 as [| b r IH]; simpl; [discriminate |].
  destruct (p b); [trivial | exact IH].
Qed.

Lemma find_optChild_other (name : string) (present : bool) (n : QDomNode) :
  isElementNamed name n = false ->
  find (isElementNamed name) (optChild present n) = None.
Proof. intros H. destruct present; simpl; [rewrite H |]; reflexivity. Qed.

Lemma find_optChild_same (name : string) (present : bool) (n : QDomNode) :
  isElementNamed name n = true ->
  find (isElementNamed name) (optChild present n) = if present then Some n else None.
Proof. intros H. destruct present; simpl; [rewrite H |]; reflexivity. Qed.

Lemma find_dom_state_other (name : string) (m : QXmppMessage) :
  existsb (String.eqb name) chatStateNames = false ->
  find (isElementNamed name) (dom_state m) = None.
Proof.
  intros H. unfold dom_state. simpl in H.
  repeat (apply orb_false_iff in H as [? H]).
  destruct (m_state m);
    cbv [optChild State_index Nat.ltb Nat.leb andb nth chat_states find isElementNamed];
    try reflexivity;
    rewrite String.eqb_sym;
    match goal with E : _ = false |- _ => rewrite E; reflexivity end.
Qed.

Lemma find_dom_stamp_other (name : string) (m : QXmppMessage) :
  String.eqb "delay" name = false -> String.eqb "x" name = false ->
  find (isElementNamed name) (dom_stamp m) = None.
Proof.
  intros H1 H2. unfold dom_stamp.
  destruct (isValid (m_stamp m)); [| reflexivity].
  destruct (m_stampType m); cbn [find isElementNamed];
    [rewrite H2 | rewrite H1]; reflexivity.
Qed.

Lemma find_extensions_other (sns name : string) (l : list QXmppElement) :
  forallb (keptExtension sns) l = true ->
  String.eqb "x" name = false ->
  find (isElementNamed name) (map sourceNode l) = None.
Proof.
  intros H Hname. induction l as [| x r IH]; simpl; [reflexivity |].
  simpl in H. apply andb_true_iff in H as [Hx Hr].
  unfold keptExtension in Hx. apply andb_true_iff in Hx as [Hx _].
  apply andb_true_iff in Hx as [_ Hx].
  destruct (sourceNode x) as [t ns a k | s]; cbn [isElementNamed] in *;
    [| discriminate Hx].
  apply String.eqb_eq in Hx. subst t. rewrite Hname. auto.
Qed.

Lemma find_optChild_app_same (name : string) (present : bool) (n : QDomNode)
  (rest : list QDomNode) :
  isElementNamed name n = true ->
  find (isElementNamed name) (optChild present n ++ rest)
  = if present then Some n else find (isElementNamed name) rest.
Proof. intros H. destruct present; simpl; [rewrite H |]; reflexivity. Qed.

Lemma if_same {A : Type} (b : bool) (a : A) : (if b then a else a) = a.
Proof. destruct b; reflexivity. Qed.

End RoundTrip.

Ltac block_absent :=
  first [ apply find_optChild_other; reflexivity
        | apply find_dom_state_other; reflexivity
        | apply find_dom_stamp_other; reflexivity ].

(** Walks the blocks of [dom_children] for a child of a given name. *)
Ltac lookup sns :=
  unfold firstChildElement, asStanza, dom_children; cbn [childNodes];
  unfold dom_subject, dom_body, dom_thread, dom_received, dom_request, dom_attention;
  repeat first
    [ rewrite find_app_none by block_absent
    | rewrite find_optChild_app_same by reflexivity
    | rewrite (find_extensions_other sns) by (assumption || reflexivity) ].

Section RoundTripDecode.

Context {K : Externals}.

Variable sns : string.
Variable m : QXmppMessage.
Hypothesis Hns : namespacesApart sns = true.
Hypothesis Hext : forallb (keptExtension sns) (extensions m) = true.

Let x : QDomElement := Some (asStanza sns m).

Lemma apart_chat_states :
  isEmpty ns_chat_states = false /\ String.eqb ns_chat_states sns = false.
Proof.
  unfold namespacesApart in Hns. rewrite forallb_forall in Hns.
  specialize (Hns ns_chat_states (or_introl eq_refl)).
  apply andb_true_iff in Hns as [H1 H2].
  split; [destruct (isEmpty _) | destruct (String.eqb _ _)];
    first [reflexivity | discriminate].
Qed.

Lemma apart_message_receipts :
  isEmpty ns_message_receipts = false /\ String.eqb ns_message_receipts sns = false.
Proof.
  unfold namespacesApart in Hns. rewrite forallb_forall in Hns.
  specialize (Hns ns_message_receipts (or_intror (or_introl eq_refl))).
  apply andb_true_iff in Hns as [H1 H2].
  split; [destruct (isEmpty _) | destruct (String.eqb _ _)];
    first [reflexivity | discriminate].
Qed.

Lemma apart_delayed_delivery :
  isEmpty ns_delayed_delivery = false /\ String.eqb ns_delayed_delivery sns = false.
Proof.
  unfold namespacesApart in Hns. rewrite forallb_forall in Hns.
  specialize (Hns ns_delayed_delivery (or_intror (or_intror (or_introl eq_refl)))).
  apply andb_true_iff in Hns as [H1 H2].
  split; [destruct (isEmpty _) | destruct (String.eqb _ _)];
    first [reflexivity | discriminate].
Qed.

Lemma apart_legacy_delayed_delivery :
  isEmpty ns_legacy_delayed_delivery = false
  /\ String.eqb ns_legacy_delayed_delivery sns = false.
Proof.
  unfold namespacesApart in Hns. rewrite forallb_forall in Hns.
  specialize (Hns ns_legacy_delayed_delivery
                  (or_intror (or_intror (or_intror (or_introl eq_refl))))).
  apply andb_true_iff in Hns as [H1 H2].
  split; [destruct (isEmpty _) | destruct (String.eqb _ _)];
    first [reflexivity | discriminate].
Qed.

Lemma apart_attention :
  isEmpty ns_attention = false /\ String.eqb ns_attention sns = false.
Proof.
  unfold namespacesApart in Hns. rewrite forallb_forall in Hns.
  specialize (Hns ns_attention
                  (or_intror (or_intror (or_intror (or_intror (or_introl eq_refl)))))).
  apply andb_true_iff in Hns as [H1 H2].
  split; [destruct (isEmpty _) | destruct (String.eqb _ _)];
    first [reflexivity | discriminate].
Qed.

Lemma empty_not_namespace (ns : string) :
  isEmpty ns = false -> String.eqb EmptyString ns = false.
Proof. destruct ns; [discriminate | reflexivity]. Qed.

(** Text children. *)
Lemma string_app_nil_r (s : string) : (s ++ EmptyString)%string = s.
Proof. induction s as [| c r IH]; simpl; [| rewrite IH]; reflexivity. Qed.

Lemma isEmpty_true (s : string) : isEmpty s = true -> s = EmptyString.
Proof. destruct s; [reflexivity | discriminate]. Qed.

Lemma layout_subject : text (firstChildElement x "subject") = m_subject m.
Proof.
  subst x. lookup sns.
  destruct (isEmpty (m_subject m)) eqn:E; simpl.
  - symmetry. apply isEmpty_true. exact E.
  - apply string_app_nil_r.
Qed.

Lemma layout_body : text (firstChildElement x "body") = m_body m.
Proof.
  subst x. lookup sns.
  destruct (isEmpty (m_body m)) eqn:E; simpl.
  - symmetry. apply isEmpty_true. exact E.
  - apply string_app_nil_r.
Qed.

Lemma layout_thread : text (firstChildElement x "thread") = m_thread m.
Proof.
  subst x. lookup sns.
  destruct (isEmpty (m_thread m)) eqn:E; simpl.
  - symmetry. apply isEmpty_true. exact E.
  - apply string_app_nil_r.
Qed.

Lemma layout_no_error : firstChildElement x "error" = None.
Proof. subst x. lookup sns. reflexivity. Qed.

Lemma layout_no_html : firstChildElement x "html" = None.
Proof. subst x. lookup sns. reflexivity. Qed.

Lemma layout_received :
  firstChildElement x "received"
  = if negb (isEmpty (m_receiptId m))
    then Some (ElementNode "received" ns_message_receipts [("id", m_receiptId m)] [])
    else None.
Proof. subst x. lookup sns. reflexivity. Qed.

Lemma layout_request :
  firstChildElement x "request"
  = if m_receiptRequested m
    then Some (ElementNode "request" ns_message_receipts [] []) else None.
Proof. subst x. lookup sns. reflexivity. Qed.

Lemma layout_attention :
  firstChildElement x "attention"
  = if m_attentionRequested m
    then Some (ElementNode "attention" ns_attention [] []) else None.
Proof. subst x. lookup sns. reflexivity. Qed.

(** The chat-state child. *)
Lemma layout_state : parse_state None_ x = m_state m.
Proof.
  subst x. unfold parse_state, stateMatches.
  cbn [seq find State_index nth chat_states].
  destruct (m_state m) eqn:E;
    unfold firstChildElement, asStanza, dom_children; cbn [childNodes];
    unfold dom_subject, dom_body, dom_thread, dom_state,
           dom_received, dom_request, dom_attention;
    rewrite E; cbn [State_index Nat.ltb Nat.leb andb nth chat_states];
    repeat first
      [ rewrite find_app_none by block_absent
      | rewrite find_optChild_app_same by reflexivity
      | rewrite (find_extensions_other sns) by (assumption || reflexivity) ];
    cbn [isNull negb andb namespaceURI];
    rewrite ?String.eqb_refl; reflexivity.
Qed.

(** The delay children. *)
Lemma lookup_single_attribute (name value : string) :
  lookupAttribute (helperToXmlAddAttribute name value) name = value.
Proof.
  unfold helperToXmlAddAttribute, lookupAttribute.
  destruct value as [| c r]; simpl; [reflexivity |].
  rewrite String.eqb_refl. reflexivity.
Qed.

Lemma layout_delay (stamp0 : QDateTime) (stampType0 : StampType) :
  parse_delay stamp0 stampType0 x
  = if isValid (m_stamp m)
    then match m_stampType m with
         | DelayedDelivery => (datetimeFromString (modernStampText m), DelayedDelivery)
         | LegacyDelayedDelivery => (stamp0, stampType0)
         end
    else (stamp0, stampType0).
Proof.
  destruct apart_delayed_delivery as [Hne _].
  subst x. unfold parse_delay.
  unfold firstChildElement, asStanza, dom_children; cbn [childNodes].
  unfold dom_subject, dom_body, dom_thread, dom_received, dom_request, dom_attention.
  repeat rewrite find_app_none by block_absent.
  unfold dom_stamp.
  destruct (isValid (m_stamp m)); [destruct (m_stampType m) |];
    cbn [app find isElementNamed].
  - change (String.eqb "x" "delay") with false. cbv iota.
    repeat first
      [ rewrite find_app_none by block_absent
      | rewrite (find_extensions_other sns) by (assumption || reflexivity) ].
    reflexivity.
  - change (String.eqb "delay" "delay") with true. cbv iota.
    cbn [isNull negb andb namespaceURI attribute].
    rewrite String.eqb_refl, lookup_single_attribute. reflexivity.
  - repeat first
      [ rewrite find_app_none by block_absent
      | rewrite (find_extensions_other sns) by (assumption || reflexivity) ].
    reflexivity.
Qed.

Lemma otherXChildren_fused (e : QDomElement) :
  otherXChildren e
  = filter (fun c => isElementNamed "x" c
                     && negb (String.eqb (namespaceURI (Some c))
                                         ns_legacy_delayed_delivery))
           (childNodes e).
Proof.
  unfold otherXChildren, childElementsNamed.
  induction (childNodes e) as [| c r IH]; [reflexivity |].
  cbn [filter]. destruct (isElementNamed "x" c); cbn [filter andb];
    rewrite IH; reflexivity.
Qed.

(** Only the stamp block and the extensions hold children named [x]. *)
Lemma filter_x_children (q : QDomNode -> bool) :
  (forall c, isElementNamed "x" c = false -> q c = false) ->
  filter q (dom_children sns m)
  = filter q (dom_stamp m) ++ filter q (map sourceNode (extensions m)).
Proof.
  intros Hq. unfold dom_children. rewrite !filter_app.
  assert (Hopt : forall present n, isElementNamed "x" n = false ->
                                   filter q (optChild present n) = []).
  { intros present n Hn. destruct present; simpl; [rewrite (Hq n Hn) |]; reflexivity. }
  unfold dom_subject, dom_body, dom_thread, dom_state,
         dom_received, dom_request, dom_attention.
  rewrite !Hopt by (try reflexivity; destruct (m_state m); reflexivity).
  reflexivity.
Qed.

Lemma kept_not_legacy (l : list QXmppElement) :
  forallb (keptExtension sns) l = true ->
  filter isLegacyDelay (map sourceNode l) = []
  /\ filter (fun c => isElementNamed "x" c
                      && negb (String.eqb (namespaceURI (Some c))
                                          ns_legacy_delayed_delivery))
            (map sourceNode l) = map sourceNode l
  /\ map (fun c => mkQXmppElement c sns) (map sourceNode l) = l.
Proof.
  induction l as [| e r IH]; intros H; [repeat split; reflexivity |].
  cbn [forallb] in H. apply andb_true_iff in H as [He Hr].
  destruct (IH Hr) as (IH1 & IH2 & IH3).
  unfold keptExtension in He.
  apply andb_true_iff in He as [He Hleg]. apply andb_true_iff in He as [Hp Hx].
  apply String.eqb_eq in Hp.
  cbn [map filter]. unfold isLegacyDelay at 1. rewrite Hx, Hleg.
  destruct (String.eqb (namespaceURI (Some (sourceNode e))) ns_legacy_delayed_delivery);
    [discriminate Hleg |].
  cbn [andb negb]. rewrite IH1, IH2, IH3.
  repeat split; try reflexivity.
  destruct e as [n p]. simpl in *. subst p. reflexivity.
Qed.

Lemma layout_legacyDelayChildren :
  legacyDelayChildren x
  = if isValid (m_stamp m)
    then match m_stampType m with
         | LegacyDelayedDelivery =>
             [ElementNode "x" ns_legacy_delayed_delivery
                (helperToXmlAddAttribute "stamp" (legacyStampText m)) []]
         | DelayedDelivery => []
         end
    else [].
Proof.
  subst x. unfold legacyDelayChildren, asStanza. cbn [childNodes].
  rewrite filter_x_children.
  - destruct (kept_not_legacy _ Hext) as (H1 & _ & _). rewrite H1, app_nil_r.
    unfold dom_stamp. destruct (isValid (m_stamp m)); [| reflexivity].
    destruct (m_stampType m); cbn [filter]; unfold isLegacyDelay;
      cbn [isElementNamed namespaceURI].
    + change (String.eqb "x" "x") with true. rewrite String.eqb_refl. reflexivity.
    + change (String.eqb "delay" "x") with false. reflexivity.
  - intros c Hc. unfold isLegacyDelay. rewrite Hc. reflexivity.
Qed.

Lemma layout_otherXChildren : otherXChildren x = map sourceNode (extensions m).
Proof.
  subst x. rewrite otherXChildren_fused. unfold asStanza. cbn [childNodes].
  rewrite filter_x_children.
  - destruct (kept_not_legacy _ Hext) as (_ & H2 & _). rewrite H2.
    unfold dom_stamp. destruct (isValid (m_stamp m)); [| reflexivity].
    destruct (m_stampType m); cbn [filter isElementNamed namespaceURI].
    + change (String.eqb "x" "x") with true. rewrite String.eqb_refl. reflexivity.
    + change (String.eqb "delay" "x") with false. reflexivity.
  - intros c Hc. rewrite Hc. reflexivity.
Qed.

(** The attributes. *)
Lemma lookup_helper_other (k v name : string) (rest : list (string * string)) :
  String.eqb k name = false ->
  lookupAttribute (helperToXmlAddAttribute k v ++ rest) name
  = lookupAttribute rest name.
Proof.
  intros H. unfold helperToXmlAddAttribute, lookupAttribute.
  destruct (isEmpty v); cbn [app find fst]; [| rewrite H]; reflexivity.
Qed.

Lemma lookup_helper_same (v name : string) (rest : list (string * string)) :
  lookupAttribute (helperToXmlAddAttribute name v ++ rest) name
  = if isEmpty v then lookupAttribute rest name else v.
Proof.
  unfold helperToXmlAddAttribute, lookupAttribute.
  destruct (isEmpty v); cbn [app find fst snd]; [| rewrite String.eqb_refl]; reflexivity.
Qed.

Lemma lookup_helper_last (v name : string) :
  lookupAttribute (helperToXmlAddAttribute name v) name = v.
Proof. apply lookup_single_attribute. Qed.

Ltac attribute_lookup :=
  subst x; unfold asStanza, toXml_attributes; cbn [attribute];
  repeat first
    [ rewrite lookup_helper_other by reflexivity
    | rewrite lookup_helper_same
    | rewrite lookup_helper_last ].

Lemma layout_lang : attribute x "xml:lang" = lang m.
Proof.
  attribute_lookup. destruct (isEmpty (lang m)) eqn:E; [| reflexivity].
  apply isEmpty_true in E. rewrite E.
  destruct (m_type m); reflexivity.
Qed.

Lemma layout_id : attribute x "id" = id m.
Proof.
  attribute_lookup. destruct (isEmpty (id m)) eqn:E; [| reflexivity].
  apply isEmpty_true in E. rewrite E.
  destruct (m_type m); reflexivity.
Qed.

Lemma layout_to : attribute x "to" = to m.
Proof.
  attribute_lookup. destruct (isEmpty (to m)) eqn:E; [| reflexivity].
  apply isEmpty_true in E. rewrite E.
  destruct (m_type m); reflexivity.
Qed.

Lemma layout_from : attribute x "from" = from m.
Proof.
  attribute_lookup. destruct (isEmpty (from m)) eqn:E; [| reflexivity].
  apply isEmpty_true in E. rewrite E.
  destruct (m_type m); reflexivity.
Qed.

Lemma layout_type : parse_type x = m_type m.
Proof.
  unfold parse_type.
  assert (E : attribute x "type"
              = nth (Type_index (m_type m)) message_types EmptyString).
  { attribute_lookup. reflexivity. }
  rewrite E. destruct (m_type m); reflexivity.
Qed.

Lemma parse_base_fields (m0 : QXmppMessage) (e : QDomElement) :
  lang (parse m0 e) = attribute e "xml:lang"
  /\ to (parse m0 e) = attribute e "to"
  /\ from (parse m0 e) = attribute e "from".
Proof.
  unfold parse.
  destruct (parse_delay (m_stamp m0) (m_stampType m0) e) as [s1 t1].
  destruct (parse_xs s1 t1 e) as [[s2 t2] ex]. repeat split; reflexivity.
Qed.

(** **** What decoding the layout recovers *)

Let d : QXmppMessage := decode x.

Lemma decoded_attributes : toXml_attributes d = toXml_attributes m.
Proof.
  subst d. unfold toXml_attributes, decode.
  destruct (parse_base_fields emptyMessage x) as (Hl & Ht & Hf).
  fold emptyMessage. rewrite Hl, Ht, Hf, parse_id, parse_m_type.
  rewrite layout_lang, layout_id, layout_to, layout_from, layout_type.
  reflexivity.
Qed.

Lemma decoded_subject : m_subject d = m_subject m.
Proof. subst d. unfold decode. rewrite parse_m_subject. apply layout_subject. Qed.

Lemma decoded_body : m_body d = m_body m.
Proof. subst d. unfold decode. rewrite parse_m_body. apply layout_body. Qed.

Lemma decoded_thread : m_thread d = m_thread m.
Proof. subst d. unfold decode. rewrite parse_m_thread. apply layout_thread. Qed.

Lemma decoded_error : error d = None.
Proof. subst d. unfold decode. rewrite parse_error, layout_no_error. reflexivity. Qed.

Lemma decoded_state : m_state d = m_state m.
Proof. subst d. unfold decode. rewrite parse_m_state. apply layout_state. Qed.

Lemma decoded_xhtml : m_xhtml d = EmptyString.
Proof.
  subst d. unfold decode. rewrite parse_m_xhtml. unfold parse_xhtml.
  rewrite layout_no_html. reflexivity.
Qed.

Lemma decoded_receiptId : m_receiptId d = m_receiptId m.
Proof.
  subst d. unfold decode. rewrite parse_m_receiptId. unfold parse_receiptId.
  rewrite layout_received.
  destruct (isEmpty (m_receiptId m)) eqn:E; cbn [negb isNull andb].
  - symmetry. apply isEmpty_true. exact E.
  - cbn [namespaceURI attribute]. rewrite String.eqb_refl.
    unfold lookupAttribute. cbn [find fst snd].
    change (String.eqb "id" "id") with true. cbv iota. cbn [snd].
    rewrite E. reflexivity.
Qed.

Lemma decoded_receiptRequested : m_receiptRequested d = m_receiptRequested m.
Proof.
  subst d. unfold decode. rewrite parse_m_receiptRequested, layout_request.
  destruct apart_message_receipts as [Hne _].
  destruct (m_receiptRequested m); cbn [namespaceURI].
  - apply String.eqb_refl.
  - apply empty_not_namespace. exact Hne.
Qed.

Lemma decoded_attentionRequested : m_attentionRequested d = m_attentionRequested m.
Proof.
  subst d. unfold decode. rewrite parse_m_attentionRequested, layout_attention.
  destruct apart_attention as [Hne _].
  destruct (m_attentionRequested m); cbn [namespaceURI].
  - apply String.eqb_refl.
  - apply empty_not_namespace. exact Hne.
Qed.

Lemma decoded_extensions : extensions d = extensions m.
Proof.
  subst d. unfold decode. rewrite parse_extensions, layout_otherXChildren.
  subst x. cbn [namespaceURI asStanza].
  apply (kept_not_legacy _ Hext).
Qed.

(** **** What the encoder writes for the layout *)

Lemma declared_namespace (ns : string) (attrs : list (string * string)) :
  isEmpty ns = false -> String.eqb ns sns = false ->
  (if isEmpty ns || String.eqb ns sns then [] else [("xmlns", ns)]) ++ attrs
  = ("xmlns", ns) :: attrs.
Proof. intros H1 H2. rewrite H1, H2. reflexivity. Qed.

Lemma inherited_namespace (attrs : list (string * string)) :
  (if isEmpty sns || String.eqb sns sns then [] else [("xmlns", sns)]) ++ attrs
  = attrs.
Proof. rewrite String.eqb_refl, orb_true_r. reflexivity. Qed.

Lemma written_subject : map (nodeToXml sns) (dom_subject sns m) = toXml_subject m.
Proof.
  unfold dom_subject, toXml_subject, helperToXmlAddTextElement.
  destruct (negb (isEmpty (m_subject m))); cbn [optChild map nodeToXml];
    [rewrite inherited_namespace |]; reflexivity.
Qed.

Lemma written_body : map (nodeToXml sns) (dom_body sns m) = toXml_body m.
Proof.
  unfold dom_body, toXml_body, helperToXmlAddTextElement.
  destruct (negb (isEmpty (m_body m))); cbn [optChild map nodeToXml];
    [rewrite inherited_namespace |]; reflexivity.
Qed.

Lemma written_thread : map (nodeToXml sns) (dom_thread sns m) = toXml_thread m.
Proof.
  unfold dom_thread, toXml_thread, helperToXmlAddTextElement.
  destruct (negb (isEmpty (m_thread m))); cbn [optChild map nodeToXml];
    [rewrite inherited_namespace |]; reflexivity.
Qed.

Lemma written_state : map (nodeToXml sns) (dom_state m) = toXml_state m.
Proof.
  destruct apart_chat_states as [H1 H2].
  unfold dom_state, toXml_state.
  destruct (_ && _); cbn [optChild map nodeToXml];
    [rewrite declared_namespace by assumption |]; reflexivity.
Qed.

Lemma written_received : map (nodeToXml sns) (dom_received m) = toXml_received m.
Proof.
  destruct apart_message_receipts as [H1 H2].
  unfold dom_received, toXml_received.
  destruct (negb _); cbn [optChild map nodeToXml];
    [rewrite declared_namespace by assumption |]; reflexivity.
Qed.

Lemma written_request : map (nodeToXml sns) (dom_request m) = toXml_request m.
Proof.
  destruct apart_message_receipts as [H1 H2].
  unfold dom_request, toXml_request.
  destruct (m_receiptRequested m); cbn [optChild map nodeToXml];
    [rewrite declared_namespace by assumption |]; reflexivity.
Qed.

Lemma written_attention : map (nodeToXml sns) (dom_attention m) = toXml_attention m.
Proof.
  destruct apart_attention as [H1 H2].
  unfold dom_attention, toXml_attention.
  destruct (m_attentionRequested m); cbn [optChild map nodeToXml];
    [rewrite declared_namespace by assumption |]; reflexivity.
Qed.

Lemma written_stamp : map (nodeToXml sns) (dom_stamp m) = toXml_stamp m.
Proof.
  destruct apart_delayed_delivery as [H1 H2].
  destruct apart_legacy_delayed_delivery as [H3 H4].
  unfold dom_stamp, toXml_stamp, modernStampText, legacyStampText.
  destruct (isValid (m_stamp m)); [| reflexivity].
  destruct (m_stampType m); cbn [map nodeToXml];
    rewrite declared_namespace by assumption; reflexivity.
Qed.

Lemma written_extensions :
  map (nodeToXml sns) (map sourceNode (extensions m)) = toXml_extensions m.
Proof.
  unfold toXml_extensions. rewrite map_map.
  induction (extensions m) as [| e r IH]; [reflexivity |].
  cbn [forallb] in Hext. apply andb_true_iff in Hext as [He Hr].
  cbn [map]. rewrite (IH Hr). f_equal.
  unfold keptExtension in He. apply andb_true_iff in He as [He _].
  apply andb_true_iff in He as [Hp _]. apply String.eqb_eq in Hp.
  unfold QXmppElement_toXml. rewrite Hp. reflexivity.
Qed.

(** The layout is what the encoder writes for a message without rich text
    and without an error payload. *)
Lemma written_layout :
  m_xhtml m = EmptyString -> error m = None ->
  writeStanza (asStanza sns m) = toXml m.
Proof.
  intros Hx He. unfold writeStanza, asStanza, toXml. cbn [namespaceURI nodeToXml].
  rewrite inherited_namespace. f_equal.
  unfold dom_children, toXml_children. rewrite !map_app.
  rewrite written_subject, written_body, written_thread, written_state,
    written_stamp, written_received, written_request, written_attention,
    written_extensions.
  unfold toXml_xhtml. rewrite Hx, He. reflexivity.
Qed.

(** The stamp the decoder recovers is written as the same text. *)
Lemma decoded_stamp : stampTextStable m -> toXml_stamp d = toXml_stamp m.
Proof.
  intros Hstable. unfold stampTextStable in Hstable.
  subst d. unfold toXml_stamp, decode.
  rewrite parse_m_stamp, parse_m_stampType, layout_legacyDelayChildren, layout_delay.
  destruct (isValid (m_stamp m)) eqn:Ev; [| reflexivity].
  specialize (Hstable eq_refl).
  destruct (m_stampType m); cbn [lastOf fst snd].
  - destruct Hstable as [Hv Hs].
    unfold legacyStamp. cbn [attribute]. rewrite lookup_single_attribute.
    change (isValid (setTimeSpec
                       (QDateTime_fromString (legacyStampText m) "yyyyMMddThh:mm:ss") UTC))
      with (isValid (QDateTime_fromString (legacyStampText m) "yyyyMMddThh:mm:ss")).
    rewrite Hv, Hs. reflexivity.
  - destruct Hstable as [Hv Hs]. rewrite Hv, Hs. reflexivity.
Qed.

(** C1 (as amended): for every stanza in the layout the encoder itself
    produces (the attributes [xml:lang], [id], [to], [from] when non-empty
    and a [type] from the table; the children [subject], [body], [thread],
    chat state, [delay] or legacy [x], [received], [request], [attention]
    and the other [x] extensions, each known child at most once and in this
    order; no XHTML-IM body and no error payload), whose stamp text is one
    the date-time conversions reproduce, encoding the decoded stanza writes
    the stanza back exactly. *)
Theorem layout_round_trip :
  stampTextStable m ->
  toXml (decode (Some (asStanza sns m))) = writeStanza (asStanza sns m).
Proof.
  intros Hstable. change (decode (Some (asStanza sns m))) with d.
  unfold writeStanza, asStanza, toXml. cbn [namespaceURI nodeToXml].
  rewrite inherited_namespace, decoded_attributes. f_equal.
  unfold dom_children, toXml_children. rewrite !map_app.
  rewrite written_subject, written_body, written_thread, written_state,
    written_stamp, written_received, written_request, written_attention,
    written_extensions.
  rewrite (decoded_stamp Hstable), decoded_error.
  unfold toXml_subject, toXml_body, toXml_thread, toXml_state, toXml_xhtml,
    toXml_received, toXml_request, toXml_attention, toXml_extensions.
  rewrite decoded_subject, decoded_body, decoded_thread, decoded_state,
    decoded_xhtml, decoded_receiptId, decoded_receiptRequested,
    decoded_attentionRequested, decoded_extensions.
  reflexivity.
Qed.

End RoundTripDecode.

Section RoundTripSamples.

#[local] Existing Instance Sample.externals.

(** C1, as stated, fails: a stanza with its [body] before its [subject]
    uses only the type attribute and two text children, yet the encoder
    writes the decoded message with [subject] first. *)
Lemma round_trip_reorders_children :
  understoodStanza bodyFirst = true
  /\ toXml (decode (Some bodyFirst)) <> writeStanza bodyFirst
  /\ toXml (decode (Some bodyFirst))
     = XElement "message" [("type", "chat")]
         [XElement "subject" [] [XCharacters "greeting"];
          XElement "body" [] [XCharacters "hi"]].
Proof.
  split; [reflexivity |]. split; [| vm_compute; reflexivity].
  vm_compute. discriminate.
Qed.

(** A stanza without a [type] attribute comes back with [type="normal"]. *)
Example round_trip_adds_type :
  understoodStanza (ElementNode "message" "jabber:client" [] [textChild "body" "hi"]) = true
  /\ toXml (decode (stanza [] [textChild "body" "hi"]))
     = XElement "message" [("type", "normal")] [XElement "body" [] [XCharacters "hi"]].
Proof. split; vm_compute; reflexivity. Qed.

(** Of a modern and a legacy delay only the legacy one comes back. *)
Example round_trip_drops_modern_delay :
  understoodStanza
    (ElementNode "message" "jabber:client" [("type", "chat")]
       [modernDelay "2002-09-10T23:08:25Z"; legacyDelay "20090110T08:21:05"]) = true
  /\ toXml (decode (stanza [("type", "chat")]
                      [modernDelay "2002-09-10T23:08:25Z"; legacyDelay "20090110T08:21:05"]))
     = XElement "message" [("type", "chat")]
         [XElement "x" [("xmlns", "jabber:x:delay"); ("stamp", "20090110T08:21:05")] []].
Proof. split; vm_compute; reflexivity. Qed.

Lemma layout_round_trip_witness :
  toXml (decode (Some (asStanza "jabber:client" fullMessage)))
  = writeStanza (asStanza "jabber:client" fullMessage).
Proof.
  apply (layout_round_trip "jabber:client" fullMessage).
  - reflexivity.
  - reflexivity.
  - intros _. split; vm_compute; reflexivity.
Defined.

Example layout_of_fullMessage :
  writeStanza (asStanza "jabber:client" fullMessage)
  = XElement "message"
      [("xml:lang", "en"); ("id", "m1"); ("to", "juliet@example.com");
       ("from", "romeo@example.net"); ("type", "groupchat")]
      [XElement "subject" [] [XCharacters "greeting"];
       XElement "body" [] [XCharacters "hi"];
       XElement "thread" [] [XCharacters "t1"];
       XElement "composing" [("xmlns", "http://jabber.org/protocol/chatstates")] [];
       XElement "x" [("xmlns", "jabber:x:delay"); ("stamp", "20120304T12:00:00")] [];
       XElement "received" [("xmlns", "urn:xmpp:receipts"); ("id", "r1")] [];
       XElement "request" [("xmlns", "urn:xmpp:receipts")] [];
       XElement "attention" [("xmlns", "urn:xmpp:attention:0")] [];
       XElement "x" [("xmlns", "jabber:x:conference"); ("jid", "room@chat.example")] [];
       XElement "x" [("xmlns", "http://jabber.org/protocol/muc#user")] []].
Proof. vm_compute. reflexivity. Qed.

End RoundTripSamples.

(** *** Further properties of the codec *)

Section Further.

Context {K : Externals}.

(** The type attribute: each of the five wire strings decodes to its type,
    any other value (a missing attribute included) to [Normal], and the
    encoder always writes the wire string of the type as the last
    attribute. *)
Theorem type_wire_table (m : QXmppMessage) (e : QDomElement) :
  (forall t, attribute e "type" = nth (Type_index t) message_types EmptyString ->
             m_type (parse m e) = t)
  /\ ((forall t, attribute e "type" <> nth (Type_index t) message_types EmptyString) ->
      m_type (parse m e) = Normal)
  /\ (exists attrs,
        outAttributes (toXml m)
        = attrs ++ [("type", nth (Type_index (m_type m)) message_types EmptyString)]).
Proof.
  rewrite parse_m_type. unfold parse_type. split; [| split].
  - intros t H. rewrite H. destruct t; reflexivity.
  - intros H.
    pose proof (H Error) as H0. pose proof (H Normal) as H1.
    pose proof (H Chat) as H2. pose proof (H GroupChat) as H3.
    pose proof (H Headline) as H4.
    apply String.eqb_neq in H0, H1, H2, H3, H4.
    cbn [seq Type_index find nth message_types] in *.
    rewrite H0, H1, H2, H3, H4. reflexivity.
  - exists (helperToXmlAddAttribute "xml:lang" (lang m)
            ++ helperToXmlAddAttribute "id" (id m)
            ++ helperToXmlAddAttribute "to" (to m)
            ++ helperToXmlAddAttribute "from" (from m)).
    cbn [toXml outAttributes]. unfold toXml_attributes.
    repeat rewrite <- app_assoc. repeat f_equal.
    destruct (m_type m); reflexivity.
Qed.

(** A message whose subject, body and thread are empty is written without
    any of the three text children. *)
Theorem toXml_omits_empty_text (m : QXmppMessage) :
  m_subject m = EmptyString -> m_body m = EmptyString -> m_thread m = EmptyString ->
  outContent (toXml m)
  = Error_toXml (error m) ++ toXml_state m ++ toXml_xhtml m ++ toXml_stamp m
    ++ toXml_received m ++ toXml_request m ++ toXml_attention m
    ++ toXml_extensions m.
Proof.
  intros Hs Hb Ht. cbn [toXml outContent].
  unfold toXml_children, toXml_subject, toXml_body, toXml_thread.
  rewrite Hs, Hb, Ht. reflexivity.
Qed.

(** A [request] child of the receipts namespace without a [received] child
    of that namespace: the receipt is requested and no receipt id is set. *)
Theorem parse_bare_request (m : QXmppMessage) (e : QDomElement) :
  firstChildIn e "request" ns_message_receipts = true ->
  hasChildIn e "received" ns_message_receipts = false ->
  m_receiptRequested (parse m e) = true
  /\ m_receiptId (parse m e) = EmptyString.
Proof.
  intros Hreq Hrec. rewrite parse_m_receiptRequested, parse_m_receiptId.
  unfold firstChildIn in Hreq. apply andb_true_iff in Hreq as [_ Hreq].
  split; [exact Hreq |].
  apply hasChildIn_false_first in Hrec. unfold firstChildIn in Hrec.
  unfold parse_receiptId. rewrite Hrec. reflexivity.
Qed.

(** The attributes the encoder writes are those of the layout. *)
Lemma toXml_attributes_layout (m : QXmppMessage) :
  toXml_attributes m = layoutAttributes m.
Proof.
  unfold toXml_attributes, layoutAttributes, helperToXmlAddAttribute.
  do 4 f_equal. destruct (m_type m); reflexivity.
Qed.

(** For a stanza namespace that differs from each of the five extension
    namespaces, these being non-empty, and a message without XHTML-IM body
    and without error payload whose extensions are [x] elements outside the
    legacy delayed-delivery namespace taken from a stanza of that namespace,
    the encoder writes the layout: a [message] element with the attributes
    [xml:lang], [id], [to], [from] where they are not empty and [type]
    under its wire name, in this order and no other, and the children of
    the layout in their order. *)
Theorem toXml_is_layout (sns : string) (m : QXmppMessage) :
  namespacesApart sns = true ->
  forallb (keptExtension sns) (extensions m) = true ->
  m_xhtml m = EmptyString -> error m = None ->
  toXml m = writeStanza (layoutStanza sns m)
  /\ toXml m
     = XElement "message"
         ((if isEmpty (lang m) then [] else [("xml:lang", lang m)])
          ++ (if isEmpty (id m) then [] else [("id", id m)])
          ++ (if isEmpty (to m) then [] else [("to", to m)])
          ++ (if isEmpty (from m) then [] else [("from", from m)])
          ++ [("type", typeName (m_type m))])
         (map (nodeToXml sns) (dom_children sns m))
  /\ layoutStanza sns m = asStanza sns m.
Proof.
  intros Hns Hext Hx He.
  assert (Hsame : layoutStanza sns m = asStanza sns m)
    by (unfold layoutStanza, asStanza; rewrite toXml_attributes_layout; reflexivity).
  assert (Hw : toXml m = writeStanza (layoutStanza sns m))
    by (rewrite Hsame; symmetry; apply written_layout; assumption).
  split; [exact Hw |]. split; [| exact Hsame].
  rewrite Hw. unfold writeStanza, layoutStanza, layoutAttributes.
  cbn [namespaceURI nodeToXml]. rewrite String.eqb_refl, orb_true_r. reflexivity.
Qed.

End Further.

Section FurtherSamples.

#[local] Existing Instance Sample.externals.

Lemma toXml_omits_empty_text_witness :
  outContent (toXml attentionReceipt)
  = [receivedElement "msg1"; attentionElement].
Proof.
  exact (toXml_omits_empty_text attentionReceipt eq_refl eq_refl eq_refl).
Defined.

Lemma parse_bare_request_witness :
  m_receiptRequested
    (parse emptyMessage
       (stanza [("id", "m2")] [ElementNode "request" "urn:xmpp:receipts" [] []])) = true
  /\ m_receiptId
       (parse emptyMessage
          (stanza [("id", "m2")] [ElementNode "request" "urn:xmpp:receipts" [] []]))
     = EmptyString.
Proof.
  exact (parse_bare_request emptyMessage
           (stanza [("id", "m2")] [ElementNode "request" "urn:xmpp:receipts" [] []])
           eq_refl eq_refl).
Defined.

Lemma toXml_is_layout_witness :
  toXml fullMessage
  = XElement "message"
      [("xml:lang", "en"); ("id", "m1"); ("to", "juliet@example.com");
       ("from", "romeo@example.net"); ("type", "groupchat")]
      (map (nodeToXml "jabber:client") (dom_children "jabber:client" fullMessage)).
Proof.
  exact (proj1 (proj2 (toXml_is_layout "jabber:client" fullMessage
                         eq_refl eq_refl eq_refl eq_refl))).
Defined.

End FurtherSamples.

(** *** What [parse] resets and what it keeps *)

Section Provenance.

Context {K : Externals}.

Lemma parse_delay_firstChildIn (stamp : QDateTime) (stampType : StampType)
  (e : QDomElement) :
  parse_delay stamp stampType e
  = if firstChildIn e "delay" ns_delayed_delivery
    then (datetimeFromString (attribute (firstChildElement e "delay") "stamp"),
          DelayedDelivery)
    else (stamp, stampType).
Proof. reflexivity. Qed.

(** The message [parse] leaves, field by field. *)
Lemma parse_normal_form (m : QXmppMessage) (e : QDomElement) :
  parse m e
  = {| base := setExtensions (QXmppStanza_parse (base m) e)
                 (map (fun c => mkQXmppElement c (namespaceURI e)) (otherXChildren e));
       m_type := parse_type e;
       m_stamp := fst (decidedStamp m e);
       m_stampType := snd (decidedStamp m e);
       m_state := parse_state (m_state m) e;
       m_attentionRequested :=
         String.eqb (namespaceURI (firstChildElement e "attention")) ns_attention;
       m_body := text (firstChildElement e "body");
       m_subject := text (firstChildElement e "subject");
       m_thread := text (firstChildElement e "thread");
       m_xhtml := parse_xhtml (m_xhtml m) e;
       m_receiptId := parse_receiptId (attribute e "id") e;
       m_receiptRequested :=
         String.eqb (namespaceURI (firstChildElement e "request")) ns_message_receipts |}.
Proof.
  unfold parse, decidedStamp.
  rewrite parse_delay_firstChildIn.
  destruct (firstChildIn e "delay" ns_delayed_delivery);
    rewrite parse_xs_result; destruct (lastOf (legacyDelayChildren e)); reflexivity.
Qed.

(** Whatever message parses an element, the type, the three texts, the
    receipt id, the two flags and the extensions come out the same: [parse]
    keeps nothing of their previous values. *)
Theorem parse_ignores_previous_fields (m1 m2 : QXmppMessage) (e : QDomElement) :
  m_type (parse m1 e) = m_type (parse m2 e)
  /\ m_body (parse m1 e) = m_body (parse m2 e)
  /\ m_subject (parse m1 e) = m_subject (parse m2 e)
  /\ m_thread (parse m1 e) = m_thread (parse m2 e)
  /\ m_receiptId (parse m1 e) = m_receiptId (parse m2 e)
  /\ m_receiptRequested (parse m1 e) = m_receiptRequested (parse m2 e)
  /\ m_attentionRequested (parse m1 e) = m_attentionRequested (parse m2 e)
  /\ extensions (parse m1 e) = extensions (parse m2 e).
Proof.
  rewrite !parse_normal_form. cbn.
  repeat split; reflexivity.
Qed.

Lemma parse_xhtml_not_found (xhtml0 : string) (e : QDomElement) :
  xhtmlBodyFound e = false -> parse_xhtml xhtml0 e = xhtml0.
Proof.
  unfold xhtmlBodyFound, firstChildIn, parse_xhtml. intros H.
  destruct (negb (isNull (firstChildElement e "html"))
            && String.eqb (namespaceURI (firstChildElement e "html")) ns_xhtml_im);
    [| reflexivity].
  cbn [andb] in H. rewrite H. reflexivity.
Qed.

(** Unless the XHTML-IM look-up succeeds, [parse] leaves the rich-text body
    the message already had. *)
Theorem parse_keeps_xhtml (m : QXmppMessage) (e : QDomElement) :
  xhtmlBodyFound e = false -> m_xhtml (parse m e) = m_xhtml m.
Proof.
  intros H. rewrite parse_m_xhtml. apply parse_xhtml_not_found. exact H.
Qed.

Lemma parse_state_idempotent (s : State) (e : QDomElement) :
  parse_state (parse_state s e) e = parse_state s e.
Proof. unfold parse_state. destruct (find _ _); reflexivity. Qed.

Lemma decidedStamp_idempotent (m : QXmppMessage) (e : QDomElement) :
  decidedStamp (parse m e) e = decidedStamp m e.
Proof.
  rewrite parse_normal_form. unfold decidedStamp. cbn [m_stamp m_stampType].
  destruct (lastOf (legacyDelayChildren e)); [reflexivity |].
  destruct (firstChildIn e "delay" ns_delayed_delivery); reflexivity.
Qed.

(** Parsing the same element twice gives what parsing it once gives, as
    long as the XHTML-IM look-up does not succeed. *)
Theorem parse_twice (m : QXmppMessage) (e : QDomElement) :
  xhtmlBodyFound e = false -> parse (parse m e) e = parse m e.
Proof.
  intros H. rewrite (parse_normal_form (parse m e) e).
  rewrite decidedStamp_idempotent, parse_m_state, parse_state_idempotent.
  rewrite parse_m_xhtml, (parse_normal_form m e).
  rewrite !parse_xhtml_not_found by exact H. reflexivity.
Qed.

(** With non-empty namespace constants, the receipt is requested exactly
    when the first [request] child lies in the receipts namespace, and
    attention exactly when the first [attention] child lies in the attention
    namespace. *)
Theorem parse_flags (m : QXmppMessage) (e : QDomElement) :
  isEmpty ns_message_receipts = false ->
  isEmpty ns_attention = false ->
  m_receiptRequested (parse m e) = firstChildIn e "request" ns_message_receipts
  /\ m_attentionRequested (parse m e) = firstChildIn e "attention" ns_attention.
Proof.
  intros Hr Ha. rewrite parse_m_receiptRequested, parse_m_attentionRequested.
  unfold firstChildIn. split.
  - destruct (firstChildElement e "request") as [c |] eqn:E.
    + rewrite (found_not_null _ _ _ E). reflexivity.
    + cbn [namespaceURI isNull negb andb]. destruct ns_message_receipts;
        [discriminate Hr | reflexivity].
  - destruct (firstChildElement e "attention") as [c |] eqn:E.
    + rewrite (found_not_null _ _ _ E). reflexivity.
    + cbn [namespaceURI isNull negb andb]. destruct ns_attention;
        [discriminate Ha | reflexivity].
Qed.

(** The chat state is the first state, in the order [Active] to [Paused],
    whose look-up succeeds. *)
Theorem parse_state_first_match (m : QXmppMessage) (e : QDomElement) (s : State) :
  s <> None_ ->
  stateMatches e (State_index s) = true ->
  (forall s', s' <> None_ -> (State_index s' < State_index s)%nat ->
              stateMatches e (State_index s') = false) ->
  m_state (parse m e) = s.
Proof.
  intros Hs Hm Hbefore. rewrite parse_m_state. unfold parse_state.
  cbn [seq State_index find].
  assert (H1 : (1 < State_index s)%nat -> stateMatches e 1 = false)
    by (intros; apply (Hbefore Active); [discriminate | assumption]).
  assert (H2 : (2 < State_index s)%nat -> stateMatches e 2 = false)
    by (intros; apply (Hbefore Inactive); [discriminate | assumption]).
  assert (H3 : (3 < State_index s)%nat -> stateMatches e 3 = false)
    by (intros; apply (Hbefore Gone); [discriminate | assumption]).
  assert (H4 : (4 < State_index s)%nat -> stateMatches e 4 = false)
    by (intros; apply (Hbefore Composing); [discriminate | assumption]).
  destruct s; cbn [State_index] in *; try contradiction;
    rewrite ?H1, ?H2, ?H3, ?H4 by lia; rewrite Hm; reflexivity.
Qed.

(** The stamp and its kind after [parse]: the last legacy [x] child decides
    if there is one; else the first [delay] child, if it lies in the
    delayed-delivery namespace; else they stay as they were. *)
Theorem parse_stamp_decision (m : QXmppMessage) (e : QDomElement) :
  (m_stamp (parse m e), m_stampType (parse m e)) = decidedStamp m e.
Proof.
  rewrite parse_normal_form. cbn [m_stamp m_stampType].
  destruct (decidedStamp m e). reflexivity.
Qed.

Lemma parse_extensions_origin (m : QXmppMessage) (e : QDomElement) (x : QXmppElement) :
  In x (extensions (parse m e)) ->
  In (sourceNode x) (childNodes e)
  /\ isElementNamed "x" (sourceNode x) = true
  /\ String.eqb (namespaceURI (Some (sourceNode x))) ns_legacy_delayed_delivery = false
  /\ parentNamespace x = namespaceURI e.
Proof.
  rewrite parse_extensions. intros Hx.
  apply in_map_iff in Hx as (c & <- & Hc).
  apply otherXChildren_In in Hc as (H1 & H2 & H3). cbn. auto.
Qed.

Lemma parse_extensions_forallb (m : QXmppMessage) (e : QDomElement) :
  forallb (keptExtension (namespaceURI e)) (extensions (parse m e)) = true.
Proof.
  apply forallb_forall. intros x Hx.
  destruct (parse_extensions_origin m e x Hx) as (_ & H2 & H3 & H4).
  unfold keptExtension. rewrite H2, H3, H4, String.eqb_refl. reflexivity.
Qed.

(** Every extension [parse] stores is a copy of a child named [x] that lies
    outside the legacy delayed-delivery namespace, taken from the parsed
    element: a legacy delay or a child of another name is never stored. *)
Theorem parse_extensions_kept (m : QXmppMessage) (e : QDomElement) :
  forallb (keptExtension (namespaceURI e)) (extensions (parse m e)) = true
  /\ (forall x, In x (extensions (parse m e)) ->
        In (sourceNode x) (childNodes e)
        /\ isElementNamed "x" (sourceNode x) = true
        /\ isLegacyDelay (sourceNode x) = false).
Proof.
  split; [apply parse_extensions_forallb |].
  intros x Hx. destruct (parse_extensions_origin m e x Hx) as (H1 & H2 & H3 & _).
  repeat split; auto. unfold isLegacyDelay. rewrite H2, H3. reflexivity.
Qed.

End Provenance.

(** *** Decoding what the encoder wrote *)

Section Recovery.

Context {K : Externals}.

Lemma layout_stampType (sns : string) (m : QXmppMessage) :
  namespacesApart sns = true ->
  forallb (keptExtension sns) (extensions m) = true ->
  isValid (m_stamp m) = true ->
  m_stampType (decode (Some (asStanza sns m))) = m_stampType m.
Proof.
  intros Hns Hext Hv. unfold decode.
  rewrite parse_m_stampType, layout_legacyDelayChildren, layout_delay by assumption.
  rewrite Hv. destruct (m_stampType m); reflexivity.
Qed.

Lemma layout_stamp_invalid (sns : string) (m : QXmppMessage) :
  namespacesApart sns = true ->
  forallb (keptExtension sns) (extensions m) = true ->
  isValid (m_stamp m) = false ->
  isValid (m_stamp (decode (Some (asStanza sns m)))) = false.
Proof.
  intros Hns Hext Hv. unfold decode.
  rewrite parse_m_stamp, layout_legacyDelayChildren, layout_delay by assumption.
  rewrite Hv. reflexivity.
Qed.

(** Decoding the stanza the encoder lays out for a message gives the
    message's fields back: type, subject, body, thread, chat state, receipt
    id, the two flags and the extensions; the kind of a valid stamp; and an
    invalid stamp stays invalid. *)
Theorem decode_recovers_fields (sns : string) (m : QXmppMessage) :
  namespacesApart sns = true ->
  forallb (keptExtension sns) (extensions m) = true ->
  m_type (decode (Some (asStanza sns m))) = m_type m
  /\ m_subject (decode (Some (asStanza sns m))) = m_subject m
  /\ m_body (decode (Some (asStanza sns m))) = m_body m
  /\ m_thread (decode (Some (asStanza sns m))) = m_thread m
  /\ m_state (decode (Some (asStanza sns m))) = m_state m
  /\ m_receiptId (decode (Some (asStanza sns m))) = m_receiptId m
  /\ m_receiptRequested (decode (Some (asStanza sns m))) = m_receiptRequested m
  /\ m_attentionRequested (decode (Some (asStanza sns m))) = m_attentionRequested m
  /\ extensions (decode (Some (asStanza sns m))) = extensions m
  /\ (isValid (m_stamp m) = true ->
        m_stampType (decode (Some (asStanza sns m))) = m_stampType m)
  /\ (isValid (m_stamp m) = false ->
        isValid (m_stamp (decode (Some (asStanza sns m)))) = false).
Proof.
  intros Hns Hext.
  repeat split.
  - unfold decode. rewrite parse_m_type. apply layout_type.
  - apply decoded_subject; assumption.
  - apply decoded_body; assumption.
  - apply decoded_thread; assumption.
  - apply decoded_state; assumption.
  - apply decoded_receiptId; assumption.
  - apply decoded_receiptRequested; assumption.
  - apply decoded_attentionRequested; assumption.
  - apply decoded_extensions; assumption.
  - apply layout_stampType; assumption.
  - apply layout_stamp_invalid; assumption.
Qed.

Lemma reencode_layout (sns : string) (m : QXmppMessage) :
  namespacesApart sns = true ->
  forallb (keptExtension sns) (extensions m) = true ->
  stampTextStable m ->
  m_xhtml m = EmptyString -> error m = None ->
  toXml (decode (Some (asStanza sns m))) = toXml m.
Proof.
  intros Hns Hext Hstable Hx He. unfold toXml.
  rewrite (decoded_attributes sns m). f_equal.
  unfold toXml_children.
  rewrite (decoded_stamp sns m Hns Hext Hstable), (decoded_error sns m Hext).
  unfold toXml_subject, toXml_body, toXml_thread, toXml_state, toXml_xhtml,
    toXml_received, toXml_request, toXml_attention, toXml_extensions.
  rewrite (decoded_subject sns m Hext), (decoded_body sns m Hext),
    (decoded_thread sns m Hext), (decoded_state sns m Hext),
    (decoded_xhtml sns m Hext), (decoded_receiptId sns m Hext),
    (decoded_receiptRequested sns m Hns Hext),
    (decoded_attentionRequested sns m Hns Hext), (decoded_extensions sns m Hext).
  rewrite Hx, He. reflexivity.
Qed.

(** Decoding and encoding is a normalisation that does its work in one
    pass: when the decoded message has no rich-text body and no error
    payload, the stanza the encoder lays out for it decodes to a message
    with the very same encoding. *)
Theorem reencoding_is_stable (e : QDomElement) :
  namespacesApart (namespaceURI e) = true ->
  m_xhtml (decode e) = EmptyString ->
  error (decode e) = None ->
  stampTextStable (decode e) ->
  toXml (decode (Some (asStanza (namespaceURI e) (decode e)))) = toXml (decode e).
Proof.
  intros Hns Hx He Hstable.
  apply reencode_layout; try assumption.
  unfold decode. apply parse_extensions_forallb.
Qed.

End Recovery.

(** *** Requesting a receipt *)

(** [setReceiptRequested] stores the flag and touches nothing else but,
    possibly, the id; the counter stays or advances by one; and making the
    same call again changes neither the message nor the counter. *)
Theorem setReceiptRequested_frame (uniqueIdNo : N) (m : QXmppMessage) (requested : bool) :
  m_receiptRequested (snd (setReceiptRequested uniqueIdNo m requested)) = requested
  /\ sameButRequestAndId m (snd (setReceiptRequested uniqueIdNo m requested))
  /\ (fst (setReceiptRequested uniqueIdNo m requested) = uniqueIdNo
      \/ fst (setReceiptRequested uniqueIdNo m requested) = N.succ uniqueIdNo)
  /\ setReceiptRequested (fst (setReceiptRequested uniqueIdNo m requested))
                         (snd (setReceiptRequested uniqueIdNo m requested)) requested
     = setReceiptRequested uniqueIdNo m requested.
Proof.
  unfold setReceiptRequested, sameButRequestAndId,
    id, to, from, lang, error, extensions.
  destruct requested; cbn [andb base].
  - destruct (isEmpty (st_id (base m))) eqn:E.
    + cbn. repeat split; auto.
    + cbn. rewrite E. repeat split; auto.
  - cbn. repeat split; auto.
Qed.

Section RequestEncoding.

Context {K : Externals}.

Lemma In_toXml_request (m : QXmppMessage) (o : XmlOut) :
  In o (toXml_request m) -> In o (outContent (toXml m)).
Proof.
  intros H. cbn [toXml outContent]. unfold toXml_children.
  do 8 (apply in_or_app; right). apply in_or_app. left. exact H.
Qed.

(** A message on which a receipt was requested is written with a [request]
    child and with an [id] attribute that is not empty. *)
Theorem requested_receipt_carries_id (uniqueIdNo : N) (m : QXmppMessage) :
  In (XElement "request" [("xmlns", ns_message_receipts)] [])
     (outContent (toXml (snd (setReceiptRequested uniqueIdNo m true))))
  /\ In ("id", id (snd (setReceiptRequested uniqueIdNo m true)))
        (outAttributes (toXml (snd (setReceiptRequested uniqueIdNo m true))))
  /\ isEmpty (id (snd (setReceiptRequested uniqueIdNo m true))) = false.
Proof.
  assert (Hflag : m_receiptRequested (snd (setReceiptRequested uniqueIdNo m true)) = true).
  { unfold setReceiptRequested. destruct (true && _); reflexivity. }
  assert (Hid : isEmpty (id (snd (setReceiptRequested uniqueIdNo m true))) = false).
  { unfold setReceiptRequested, id. cbn [base andb].
    destruct (isEmpty (st_id (base m))) eqn:E; [reflexivity | exact E]. }
  split; [| split; [| exact Hid]].
  - apply In_toXml_request. unfold toXml_request. rewrite Hflag. left. reflexivity.
  - cbn [toXml outAttributes]. unfold toXml_attributes.
    apply in_or_app. right. apply in_or_app. left.
    unfold helperToXmlAddAttribute. rewrite Hid. left. reflexivity.
Qed.

End RequestEncoding.

(** *** The XHTML-IM fragment *)

Section Strings.

Lemma dropChars_app (a b : string) :
  dropChars (String.length a) (a ++ b)%string = b.
Proof. induction a as [| c r IH]; simpl; [destruct b |]; auto. Qed.

Lemma prefix_app (p t : string) : String.prefix p (p ++ t)%string = true.
Proof.
  induction p as [| c r IH]; simpl; [destruct t; reflexivity |].
  destruct (ascii_dec c c); [exact IH | congruence].
Qed.

Lemma replaceFrom_skip (before after : string) (s : string) :
  forall k, replaceFrom before after k s
            = replaceFrom before after O (dropChars k s).
Proof.
  induction s as [| c r IH]; intros [| k]; try reflexivity.
  cbn [replaceFrom dropChars]. apply IH.
Qed.

Lemma findFirst_none (pat : string) (c : ascii) (r : string) :
  findFirst pat (String c r) = None ->
  String.prefix pat (String c r) = false /\ findFirst pat r = None.
Proof.
  cbn [findFirst]. destruct (String.prefix pat (String c r)); [discriminate |].
  destruct (findFirst pat r); [discriminate | auto].
Qed.

(** Without an occurrence, [replace] changes nothing. *)
Lemma replace_absent (before after s : string) :
  findFirst before s = None -> replace s before after = s.
Proof.
  unfold replace. induction s as [| c r IH]; [reflexivity |].
  intros H. apply findFirst_none in H as [Hp Hr].
  cbn [replaceFrom]. rewrite Hp, andb_false_r, (IH Hr). reflexivity.
Qed.

(** The first occurrence is replaced and the search goes on behind it. *)
Lemma replace_first (before after inner tail : string) :
  isEmpty before = false ->
  findFirst before (inner ++ before ++ tail)%string = Some (String.length inner) ->
  replace (inner ++ before ++ tail)%string before after
  = (inner ++ after ++ replace tail before after)%string.
Proof.
  unfold replace. intros Hne. induction inner as [| c r IH]; intros H.
  - destruct before as [| b p]; [discriminate Hne |].
    change (EmptyString ++ String b p ++ tail)%string
      with (String b (p ++ tail)%string).
    cbn [replaceFrom isEmpty negb andb].
    change (String b (p ++ tail)%string) with (String b p ++ tail)%string.
    rewrite prefix_app. cbn [String.length Nat.sub].
    rewrite Nat.sub_0_r, replaceFrom_skip, dropChars_app. reflexivity.
  - change (String c r ++ before ++ tail)%string
      with (String c (r ++ before ++ tail)%string) in *.
    cbn [findFirst String.length] in H.
    destruct (String.prefix before (String c (r ++ before ++ tail)%string)) eqn:Hp;
      [discriminate H |].
    destruct (findFirst before (r ++ before ++ tail)%string) as [n |] eqn:Hf;
      [| discriminate H].
    cbn [option_map] in H. injection H as H. subst n.
    cbn [replaceFrom]. rewrite Hp, andb_false_r, (IH eq_refl). reflexivity.
Qed.

Lemma indexOf_lower (s : string) (c : ascii) : (-1 <= indexOf s c)%Z.
Proof.
  induction s as [| a r IH]; cbn [indexOf]; [lia |].
  destruct (Ascii.eqb a c); [lia |].
  destruct (indexOf r c <? 0)%Z eqn:E; [lia |].
  apply Z.ltb_ge in E. lia.
Qed.

Lemma indexOf_app (a b : string) (c : ascii) :
  indexOf a c = (-1)%Z ->
  indexOf (a ++ String c b)%string c = Z.of_nat (String.length a).
Proof.
  induction a as [| x r IH]; intros H.
  - cbn. rewrite Ascii.eqb_refl. reflexivity.
  - cbn [indexOf] in H.
    change (String x r ++ String c b)%string with (String x (r ++ String c b)%string).
    cbn [indexOf String.length].
    destruct (Ascii.eqb x c); [discriminate H |].
    destruct (indexOf r c <? 0)%Z eqn:E.
    + apply Z.ltb_lt in E. pose proof (indexOf_lower r c).
      rewrite IH by lia.
      destruct (Z.of_nat (String.length r) <? 0)%Z eqn:E2;
        [apply Z.ltb_lt in E2; lia | lia].
    + apply Z.ltb_ge in E. lia.
Qed.

Lemma mid_behind (a b : string) (c : ascii) :
  mid (a ++ String c b)%string (Z.of_nat (String.length a) + 1) = b.
Proof.
  unfold mid.
  assert (Hlen : String.length (a ++ String c b)%string
                 = (String.length a + S (String.length b))%nat).
  { induction a as [| x r IH]; cbn [String.length append]; [reflexivity |].
    change (String x r ++ String c b)%string with (String x (r ++ String c b)%string).
    cbn [String.length]. rewrite IH. reflexivity. }
  rewrite Hlen.
  destruct (Z.of_nat (String.length a + S (String.length b))
            <? Z.of_nat (String.length a) + 1)%Z eqn:E;
    [apply Z.ltb_lt in E; lia |].
  replace (Z.to_nat (Z.of_nat (String.length a) + 1)) with (S (String.length a)) by lia.
  clear. induction a as [| x r IH]; [reflexivity |].
  change (String x r ++ String c b)%string with (String x (r ++ String c b)%string).
  cbn [String.length dropChars]. exact IH.
Qed.

Lemma append_associative (a b c : string) :
  ((a ++ b) ++ c = a ++ (b ++ c))%string.
Proof. induction a as [| x r IH]; cbn [append]; [| rewrite IH]; reflexivity. Qed.

Lemma indexOf_absent (x : ascii) (r : string) (c : ascii) :
  indexOf (String x r) c = (-1)%Z -> Ascii.eqb x c = false /\ indexOf r c = (-1)%Z.
Proof.
  cbn [indexOf]. destruct (Ascii.eqb x c); [discriminate |].
  pose proof (indexOf_lower r c).
  destruct (indexOf r c <? 0)%Z eqn:E; [apply Z.ltb_lt in E | apply Z.ltb_ge in E];
    intros; split; [reflexivity | lia | reflexivity | lia].
Qed.

(** A pattern without the character [c] matches in front of [c] what it
    matches without what follows. *)
Lemma prefix_before (p : string) (c : ascii) (b : string) :
  indexOf p c = (-1)%Z ->
  forall a, String.prefix p (a ++ String c b)%string = String.prefix p a.
Proof.
  induction p as [| y q IH]; intros Hp a.
  - destruct a; reflexivity.
  - apply indexOf_absent in Hp as [Hy Hq]. destruct a as [| x r].
    + cbn [append String.prefix].
      destruct (ascii_dec y c) as [-> |]; [| reflexivity].
      rewrite Ascii.eqb_refl in Hy. discriminate Hy.
    + cbn [append String.prefix]. destruct (ascii_dec y x); [| reflexivity].
      apply IH. exact Hq.
Qed.

Lemma prefix_length (p s : string) :
  String.prefix p s = true -> (String.length p <= String.length s)%nat.
Proof.
  revert s. induction p as [| y q IH]; intros s H; [cbn; lia |].
  destruct s as [| x r]; [discriminate H |].
  cbn [String.prefix] in H. destruct (ascii_dec y x); [| discriminate H].
  apply IH in H. cbn [String.length]. lia.
Qed.

(** [replace] works on both sides of a character the pattern does not
    hold. *)
Lemma replaceFrom_split (before after : string) (c : ascii) (b : string) :
  indexOf before c = (-1)%Z ->
  forall a k, (k <= String.length a)%nat ->
    replaceFrom before after k (a ++ String c b)%string
    = (replaceFrom before after k a
       ++ String c (replaceFrom before after O b))%string.
Proof.
  intros Hc. induction a as [| x r IH]; intros k Hk.
  - assert (k = O) by (cbn in Hk; lia). subst k.
    cbn [append replaceFrom].
    replace (negb (isEmpty before) && String.prefix before (String c b)) with false;
      [reflexivity |].
    destruct before as [| y q]; [reflexivity |].
    apply indexOf_absent in Hc as [Hy _].
    cbn [isEmpty negb andb String.prefix].
    destruct (ascii_dec y c) as [-> |]; [| reflexivity].
    rewrite Ascii.eqb_refl in Hy. discriminate Hy.
  - change (String x r ++ String c b)%string with (String x (r ++ String c b)%string).
    destruct k as [| k]; cbn [replaceFrom].
    + change (String x (r ++ String c b)%string) with (String x r ++ String c b)%string.
      rewrite (prefix_before before c b Hc (String x r)).
      destruct (negb (isEmpty before) && String.prefix before (String x r)) eqn:E.
      * apply andb_true_iff in E as [_ E]. apply prefix_length in E.
        cbn [String.length] in E.
        rewrite IH by lia. symmetry. apply append_associative.
      * rewrite IH by lia. reflexivity.
    + apply IH. cbn [String.length] in Hk. lia.
Qed.

Lemma replace_split (before after : string) (c : ascii) (a b : string) :
  indexOf before c = (-1)%Z ->
  replace (a ++ String c b)%string before after
  = (replace a before after ++ String c (replace b before after))%string.
Proof. intros Hc. unfold replace. apply replaceFrom_split; [exact Hc | lia]. Qed.

(** The namespace declarations go on both sides of a closing tag. *)
Lemma withoutNamespaceDeclaration_body (inner tail : string) :
  withoutNamespaceDeclaration (inner ++ "</body>" ++ tail)%string
  = (withoutNamespaceDeclaration inner ++ "</body>"
     ++ withoutNamespaceDeclaration tail)%string.
Proof.
  unfold withoutNamespaceDeclaration.
  change (inner ++ "</body>" ++ tail)%string
    with (inner ++ String "<" ("/body" ++ String ">" tail))%string.
  rewrite (replace_split xhtmlNamespaceDeclaration EmptyString "<" inner _ eq_refl).
  rewrite (replace_split xhtmlNamespaceDeclaration EmptyString ">" "/body" tail eq_refl).
  reflexivity.
Qed.

(** The white space among the characters of a [string]. *)
Lemma isSpace_table (c : ascii) :
  isSpace c = true
  <-> In (nat_of_ascii c) [9; 10; 11; 12; 13; 32; 133; 160]%nat.
Proof.
  unfold isSpace. cbv zeta. generalize (nat_of_ascii c) as n. intros n.
  rewrite !orb_true_iff, andb_true_iff, !Nat.leb_le, !Nat.eqb_eq.
  cbn [In]. lia.
Qed.

Example trimmed_no_break_space :
  trimmed (String (ascii_of_nat 160) ("hi there" ++ String (ascii_of_nat 133) " "))
  = "hi there".
Proof. reflexivity. Qed.

Lemma trimRight_idempotent (s : string) : trimRight (trimRight s) = trimRight s.
Proof.
  induction s as [| c r IH]; [reflexivity |].
  cbn [trimRight].
  destruct (isSpace c && isEmpty (trimRight r)) eqn:E; [reflexivity |].
  cbn [trimRight]. rewrite IH, E. reflexivity.
Qed.

Lemma trimLeft_head (s : string) :
  trimLeft s = EmptyString
  \/ exists c r, trimLeft s = String c r /\ isSpace c = false.
Proof.
  induction s as [| c r IH]; [left; reflexivity |].
  cbn [trimLeft]. destruct (isSpace c) eqn:E; [exact IH |].
  right. exists c, r. auto.
Qed.

Lemma trimmed_idempotent (s : string) : trimmed (trimmed s) = trimmed s.
Proof.
  unfold trimmed. destruct (trimLeft_head s) as [H | (c & r & H & Hc)]; rewrite H.
  - reflexivity.
  - cbn [trimRight]. rewrite Hc. cbn [andb trimLeft]. rewrite Hc.
    cbn [trimRight]. rewrite Hc, trimRight_idempotent. reflexivity.
Qed.

End Strings.

Section Fragment.

Context {K : Externals}.

(** The fragment the decoder extracts.  When the serialised [body]
    element is an opening tag, the content and the closing tag (and
    possibly a tail), the decoded rich text is the content and the tail
    freed of every XHTML namespace declaration, hence of the declarations of
    the elements the content holds, and of surrounding white space;
    provided that what is left of the content holds no closing [body] tag
    of its own, nor does what is left of the tail.  The encoder writes the
    rich text back raw inside [html] and [body], or not at all when it is
    empty. *)
Theorem decode_xhtml_fragment (e : QDomElement) (opening inner tail : string) :
  xhtmlBodyFound e = true ->
  save (firstChildElement (firstChildElement e "html") "body")
  = (opening ++ String ">" (inner ++ "</body>" ++ tail))%string ->
  indexOf opening ">" = (-1)%Z ->
  findFirst "</body>" (withoutNamespaceDeclaration inner ++ "</body>"
                       ++ withoutNamespaceDeclaration tail)%string
  = Some (String.length (withoutNamespaceDeclaration inner)) ->
  findFirst "</body>" (withoutNamespaceDeclaration tail) = None ->
  m_xhtml (decode e)
  = trimmed (withoutNamespaceDeclaration inner ++ withoutNamespaceDeclaration tail)%string
  /\ toXml_xhtml (decode e)
     = if isEmpty (trimmed (withoutNamespaceDeclaration inner
                            ++ withoutNamespaceDeclaration tail)%string)
       then []
       else [XElement "html" [("xmlns", ns_xhtml_im)]
               [XElement "body" [("xmlns", ns_xhtml)]
                  [XCharacters EmptyString;
                   XRaw (trimmed (withoutNamespaceDeclaration inner
                                  ++ withoutNamespaceDeclaration tail)%string)]]].
Proof.
  intros Hfound Hsave Hopen Hclose Htail.
  assert (Hx : m_xhtml (decode e)
               = trimmed (withoutNamespaceDeclaration inner
                          ++ withoutNamespaceDeclaration tail)%string).
  { unfold decode. rewrite parse_m_xhtml. unfold parse_xhtml.
    unfold xhtmlBodyFound, firstChildIn in Hfound.
    apply andb_true_iff in Hfound as [Hhtml Hbody].
    rewrite Hhtml, Hbody. cbn [m_xhtml QXmppMessage_ctor append].
    rewrite Hsave, (indexOf_app _ _ _ Hopen), mid_behind.
    change (replace (inner ++ "</body>" ++ tail)%string _ EmptyString)
      with (withoutNamespaceDeclaration (inner ++ "</body>" ++ tail)%string).
    rewrite withoutNamespaceDeclaration_body.
    rewrite (replace_first "</body>" EmptyString _ _ eq_refl Hclose).
    rewrite (replace_absent _ _ _ Htail). reflexivity. }
  split; [exact Hx |].
  unfold toXml_xhtml. rewrite Hx.
  destruct (isEmpty (trimmed _)); reflexivity.
Qed.

(** Decoded rich text never starts or ends with white space. *)
Theorem decoded_xhtml_is_trimmed (e : QDomElement) :
  trimmed (m_xhtml (decode e)) = m_xhtml (decode e).
Proof.
  unfold decode. rewrite parse_m_xhtml. unfold parse_xhtml.
  cbn [m_xhtml QXmppMessage_ctor].
  destruct (negb (isNull (firstChildElement e "html")) && _); [| reflexivity].
  destruct (negb (isNull _) && _); [| reflexivity].
  apply trimmed_idempotent.
Qed.

End Fragment.

(** *** The further properties on concrete stanzas *)

Section ProvenanceSamples.

#[local] Existing Instance Sample.externals.

Lemma parse_keeps_xhtml_witness :
  m_xhtml (parse richMessage plainStanza) = "<p>hi</p>".
Proof. exact (parse_keeps_xhtml richMessage plainStanza eq_refl). Defined.

Lemma parse_twice_witness :
  parse (parse typingMessage unorderedStanza) unorderedStanza
  = parse typingMessage unorderedStanza.
Proof. exact (parse_twice typingMessage unorderedStanza eq_refl). Defined.

Lemma parse_flags_witness :
  m_receiptRequested (parse emptyMessage plainStanza) = false
  /\ m_attentionRequested
       (parse emptyMessage
          (stanza [] [ElementNode "attention" "urn:xmpp:attention:0" [] []])) = true.
Proof.
  split.
  - exact (proj1 (parse_flags emptyMessage plainStanza eq_refl eq_refl)).
  - exact (proj2 (parse_flags emptyMessage
                    (stanza [] [ElementNode "attention" "urn:xmpp:attention:0" [] []])
                    eq_refl eq_refl)).
Defined.

Lemma parse_state_first_match_witness :
  m_state (parse emptyMessage twoStatesStanza) = Active.
Proof.
  apply (parse_state_first_match emptyMessage twoStatesStanza Active).
  - discriminate.
  - reflexivity.
  - intros s' Hs' Hlt. destruct s'; cbn in Hlt; first [contradiction | lia].
Defined.

Lemma decode_recovers_fields_witness :
  m_type (decode (Some (asStanza "jabber:client" fullMessage))) = GroupChat
  /\ m_state (decode (Some (asStanza "jabber:client" fullMessage))) = Composing
  /\ extensions (decode (Some (asStanza "jabber:client" fullMessage)))
     = extensions fullMessage.
Proof.
  pose proof (decode_recovers_fields "jabber:client" fullMessage eq_refl eq_refl) as H.
  split; [exact (proj1 H) |]. split.
  - exact (proj1 (proj2 (proj2 (proj2 (proj2 H))))).
  - exact (proj1 (proj2 (proj2 (proj2 (proj2 (proj2 (proj2 (proj2 (proj2 H))))))))).
Defined.

Lemma reencoding_is_stable_witness :
  toXml (decode (Some (asStanza "jabber:client" (decode unorderedStanza))))
  = toXml (decode unorderedStanza).
Proof.
  apply (reencoding_is_stable unorderedStanza).
  - reflexivity.
  - reflexivity.
  - reflexivity.
  - intros _. split; vm_compute; reflexivity.
Defined.

Example unorderedStanza_normalised :
  toXml (decode unorderedStanza)
  = XElement "message" [("id", "m7"); ("type", "chat")]
      [XElement "subject" [] [XCharacters "greeting"];
       XElement "body" [] [XCharacters "hi"];
       XElement "paused" [("xmlns", "http://jabber.org/protocol/chatstates")] [];
       XElement "x" [("xmlns", "jabber:x:delay"); ("stamp", "20090110T08:21:05")] [];
       XElement "x" [("xmlns", "jabber:x:conference"); ("jid", "room@chat.example")] [];
       XElement "x" [("xmlns", "http://jabber.org/protocol/muc#user")] []].
Proof. vm_compute. reflexivity. Qed.

Lemma decode_xhtml_fragment_witness :
  m_xhtml (decode richElementStanza) = "<p>hi <b>there</b></p>".
Proof.
  exact (proj1 (decode_xhtml_fragment richElementStanza
                  ("<body xmlns=" ++ dquote ++ "http://www.w3.org/1999/xhtml" ++ dquote)%string
                  (" <p xmlns=" ++ dquote ++ "http://www.w3.org/1999/xhtml" ++ dquote
                   ++ ">hi <b xmlns=" ++ dquote ++ "http://www.w3.org/1999/xhtml" ++ dquote
                   ++ ">there</b></p>  ")%string
                  EmptyString
                  eq_refl eq_refl eq_refl eq_refl eq_refl)).
Defined.

End ProvenanceSamples.

(** *** Edge cases of the decoder *)

Section Edges.

Context {K : Externals}.

(** An old-style receipt, a [received] child of the receipts namespace
    without an [id]: in a stanza with an id it is written back with that id
    made explicit; in a stanza without an id no receipt id is decoded and
    the encoder writes no [received] child at all. *)
Theorem old_style_receipt_reencoded (m : QXmppMessage) (e : QDomElement) :
  firstChildIn e "received" ns_message_receipts = true ->
  isEmpty (attribute (firstChildElement e "received") "id") = true ->
  toXml_received (parse m e)
  = if isEmpty (attribute e "id") then []
    else [XElement "received"
            [("xmlns", ns_message_receipts); ("id", attribute e "id")] []].
Proof.
  intros Hfirst Hid. unfold toXml_received.
  rewrite parse_m_receiptId. unfold parse_receiptId.
  unfold firstChildIn in Hfirst. rewrite Hfirst, Hid.
  destruct (isEmpty (attribute e "id")); reflexivity.
Qed.

(** An element without attributes and without children, the null element
    included, decodes to the default-constructed message with its type set
    to [Normal]: no field is left undefined and no flag is raised. *)
Theorem decode_empty_element (e : QDomElement) :
  childNodes e = [] ->
  (forall name, attribute e name = EmptyString) ->
  isEmpty ns_message_receipts = false ->
  isEmpty ns_attention = false ->
  decode e = setType emptyMessage Normal.
Proof.
  intros Hkids Hattr Hr Ha. unfold decode. rewrite parse_normal_form.
  assert (Hnone : forall name, firstChildElement e name = None).
  { intros name. unfold firstChildElement. rewrite Hkids. reflexivity. }
  assert (Hlegacy : legacyDelayChildren e = []).
  { unfold legacyDelayChildren. rewrite Hkids. reflexivity. }
  assert (Hother : otherXChildren e = []).
  { unfold otherXChildren, childElementsNamed. rewrite Hkids. reflexivity. }
  unfold decidedStamp, firstChildIn, parse_state, stateMatches, parse_xhtml,
    parse_receiptId, parse_type, QXmppStanza_parse.
  rewrite Hlegacy, Hother, !Hnone, !Hattr.
  cbn. rewrite !Hnone. cbn.
  destruct ns_message_receipts; [discriminate Hr |].
  destruct ns_attention; [discriminate Ha |].
  reflexivity.
Qed.

End Edges.

Section EdgeSamples.

#[local] Existing Instance Sample.externals.

Lemma old_style_receipt_reencoded_witness :
  toXml_received (parse emptyMessage oldReceiptStanza) = [receivedElement "m1"]
  /\ toXml_received (parse emptyMessage anonymousReceiptStanza) = [].
Proof.
  split.
  - exact (old_style_receipt_reencoded emptyMessage oldReceiptStanza eq_refl eq_refl).
  - exact (old_style_receipt_reencoded emptyMessage anonymousReceiptStanza
             eq_refl eq_refl).
Defined.

Lemma decode_empty_element_witness :
  decode None = setType emptyMessage Normal
  /\ decode (stanza [] []) = setType emptyMessage Normal.
Proof.
  split.
  - exact (decode_empty_element None eq_refl (fun _ => eq_refl) eq_refl eq_refl).
  - exact (decode_empty_element (stanza [] []) eq_refl (fun _ => eq_refl)
             eq_refl eq_refl).
Defined.

End EdgeSamples.
